(** * Budgeted prompt assembly: token estimation, history eviction,
      condensation and priority packing

    A shallow embedding of the four modules that make up the prompt-budget
    core of the agent:

    - [token_optimizer_module.py]           ([TokenOptimizer])
    - [context_manager_module.py]           ([ContextManager])
    - [contextual_memory_condenser_ai.py]   ([ContextualMemoryCondenserAI])
    - [dynamic_prompt_constructor.py]       ([DynamicPromptConstructor])

    Modelling conventions.
    - A Python [int] is a [Z]; [//] is [Z.div] (both round towards minus
      infinity), [int(x)] of a float is truncation towards zero ([Z.quot]).
    - A Python [str] is a [string]; [len] counts its characters.
    - A [dict] used as a map is a [gmap]; a dict whose printed form matters
      is an association list in insertion order.
    - A method that can raise returns an [outcome]; a [while] loop is run
      with fuel and is shown to need no more than the length of the list it
      consumes.
    - Logging is write-only in all four modules and is left out. *)

From Stdlib Require Import ZArith Lia Ascii String.
From stdpp Require Import gmap strings list.

Local Open Scope Z_scope.

(* ===================================================================== *)
(** ** Python built-ins used by the modules *)
(* ===================================================================== *)

Module Py.

(** [len(s)] *)
Definition len (s : string) : Z := Z.of_nat (String.length s).

(** The first [n] characters of [s] (all of [s] when it is shorter). *)
Fixpoint prefix (n : nat) (s : string) : string :=
  match n, s with
  | O, _ => EmptyString
  | S _, EmptyString => EmptyString
  | S n', String c s' => String c (prefix n' s')
  end.

(** [s[:n]]: a negative [n] counts from the end of the string. *)
Definition slice_to (s : string) (n : Z) : string :=
  if 0 <=? n then prefix (Z.to_nat n) s
  else prefix (Z.to_nat (len s + n)) s.

(** [c.isspace()] for the code points below 256. *)
Definition isspace (c : ascii) : bool :=
  let n := nat_of_ascii c in
  ((9 <=? n)%nat && (n <=? 13)%nat) || ((28 <=? n)%nat && (n <=? 32)%nat)
  || (n =? 133)%nat || (n =? 160)%nat.

(** [s.lstrip()] *)
Fixpoint lstrip (s : string) : string :=
  match s with
  | EmptyString => EmptyString
  | String c s' => if isspace c then lstrip s' else s
  end.

(** [s.rstrip()] *)
Fixpoint rstrip (s : string) : string :=
  match s with
  | EmptyString => EmptyString
  | String c s' =>
      match rstrip s' with
      | EmptyString => if isspace c then EmptyString else String c EmptyString
      | r => String c r
      end
  end.

(** [s.strip()] *)
Definition strip (s : string) : string := rstrip (lstrip s).

(** [sep.join(parts)] *)
Fixpoint join (sep : string) (parts : list string) : string :=
  match parts with
  | [] => EmptyString
  | [p] => p
  | p :: rest => p +:+ sep +:+ join sep rest
  end.

Definition upper_char (c : ascii) : ascii :=
  let n := nat_of_ascii c in
  if ((97 <=? n)%nat && (n <=? 122)%nat)
     || ((224 <=? n)%nat && (n <=? 254)%nat && negb (n =? 247)%nat)
  then ascii_of_nat (n - 32) else c.

Definition lower_char (c : ascii) : ascii :=
  let n := nat_of_ascii c in
  if ((65 <=? n)%nat && (n <=? 90)%nat)
     || ((192 <=? n)%nat && (n <=? 222)%nat && negb (n =? 215)%nat)
  then ascii_of_nat (n + 32) else c.

Fixpoint lower (s : string) : string :=
  match s with
  | EmptyString => EmptyString
  | String c s' => String (lower_char c) (lower s')
  end.

(** [s.capitalize()] for the code points below 256: first character
    upper-cased, the rest lower-cased.  Three letters have no capital among
    these code points (181, 223 and 255: the capital is a code point above
    255 or two letters long); as a first character they are left as they
    are. *)
Definition capitalize (s : string) : string :=
  match s with
  | EmptyString => EmptyString
  | String c s' => String (upper_char c) (lower s')
  end.

(** [len(s.split())]: the number of maximal runs of non-space characters.
    [in_word] tells whether the previous character belonged to a word. *)
Fixpoint count_words (in_word : bool) (s : string) : Z :=
  match s with
  | EmptyString => 0
  | String c s' =>
      if isspace c then count_words false s'
      else (if in_word then 0 else 1) + count_words true s'
  end.

(** The one-character string [chr(10)], the line feed. *)
Definition newline : string := String (ascii_of_nat 10) EmptyString.

(** [bool(s)] for a string *)
Definition truthy_str (s : string) : bool :=
  match s with EmptyString => false | _ => true end.

End Py.

(** A call either returns, raises, or (for a fuelled loop) runs out of fuel. *)
Inductive outcome (A : Type) : Type :=
| Returns (a : A)
| Raises (exn : string)
| OutOfFuel.
Arguments Returns {A} a.
Arguments Raises {A} exn.
Arguments OutOfFuel {A}.

Global Instance outcome_bind : MBind outcome := fun A B k o =>
  match o with
  | Returns a => k a
  | Raises e => Raises e
  | OutOfFuel => OutOfFuel
  end.

(* ===================================================================== *)
(** ** token_optimizer_module.py *)
(* ===================================================================== *)

Module TokenOptimizer.

(** [TokenOptimizer.estimate_token_count]; [tokenizer_model_name] is only
    logged. *)
Definition estimate_token_count (text : string) : Z :=
  if negb (Py.truthy_str text) then 0
  else (Py.len text + 3) / 4.

End TokenOptimizer.

(* ===================================================================== *)
(** ** context_manager_module.py *)
(* ===================================================================== *)

Module ContextManager.

(** An entry of [context_history]: [{"role":..,"content":..,"tokens":..}] *)
Record message := Message {
  role : string;
  content : string;
  tokens : Z
}.

(** The fields of a [ContextManager] that its methods read or write. *)
Record t := Build {
  max_tokens : Z;
  context_history : list message;
  current_total_tokens : Z
}.

(** [ContextManager.__init__] *)
Definition init (max_tokens : Z) : t :=
  {| max_tokens := max_tokens; context_history := []; current_total_tokens := 0 |}.

(** [ContextManager._estimate_tokens] *)
Definition _estimate_tokens (text : string) : Z :=
  if negb (Py.truthy_str text) then 0
  else (Py.len text + 3) / 4.

(** The test of the [while] in [prune_context_if_needed]. *)
Definition loop_test (self : t) (additional_tokens_to_add : Z) : bool :=
  (max_tokens self <? current_total_tokens self + additional_tokens_to_add)
  && match context_history self with [] => false | _ => true end.

(** The body of that [while]: [pop(0)] and the subtraction. [pop(0)] on
    an empty list raises [IndexError]. *)
Definition loop_body (self : t) : outcome t :=
  match context_history self with
  | [] => Raises "IndexError"
  | removed_message :: rest =>
      Returns {| max_tokens := max_tokens self;
                 context_history := rest;
                 current_total_tokens :=
                   current_total_tokens self - tokens removed_message |}
  end.

(** The [while] loop, with the flag [pruned], run for at most [fuel]
    iterations. *)
Fixpoint prune_loop (fuel : nat) (self : t) (additional_tokens_to_add : Z)
                    (pruned : bool) : outcome (t * bool) :=
  if loop_test self additional_tokens_to_add then
    match fuel with
    | O => OutOfFuel
    | S fuel' =>
        self' ← loop_body self;
        prune_loop fuel' self' additional_tokens_to_add true
    end
  else Returns (self, pruned).

(** [ContextManager.prune_context_if_needed] *)
Definition prune_context_if_needed (self : t) (additional_tokens_to_add : Z)
  : outcome (t * bool) :=
  prune_loop (length (context_history self)) self additional_tokens_to_add false.

(** [ContextManager.add_message] *)
Definition add_message (self : t) (role content : string) : outcome t :=
  let message_tokens := _estimate_tokens content in
  r ← prune_context_if_needed self message_tokens;
  let self := fst r in
  if current_total_tokens self + message_tokens <=? max_tokens self then
    let message := {| role := role; content := content; tokens := message_tokens |} in
    Returns {| max_tokens := max_tokens self;
               context_history := context_history self ++ [message];
               current_total_tokens := current_total_tokens self + message_tokens |}
  else Returns self.

(** [ContextManager.get_context] *)
Definition get_context (self : t) : list (string * string) :=
  map (fun msg => (role msg, content msg)) (context_history self).

(** [ContextManager.get_current_token_count] *)
Definition get_current_token_count (self : t) : Z := current_total_tokens self.

(** [ContextManager.clear_context] *)
Definition clear_context (self : t) : t :=
  {| max_tokens := max_tokens self; context_history := []; current_total_tokens := 0 |}.

(** A sequence of [add_message] calls, in order. *)
Fixpoint add_messages (self : t) (calls : list (string * string)) : outcome t :=
  match calls with
  | [] => Returns self
  | (role, content) :: rest =>
      self' ← add_message self role content;
      add_messages self' rest
  end.

(** Sum of the [tokens] fields of a list of messages. *)
Definition total_cost (h : list message) : Z :=
  foldr (fun m acc => tokens m + acc) 0 h.

End ContextManager.

(* ===================================================================== *)
(** ** Values passed around untyped: prompt components and condenser data *)
(* ===================================================================== *)

(** A [dict] with string keys and string values, entries in insertion
    order. *)
Definition py_dict : Type := list (string * string).

(** [key in d] and [d[key]] together: the value stored under [key]. *)
Fixpoint dict_lookup (d : py_dict) (key : string) : option string :=
  match d with
  | [] => None
  | (k, v) :: rest => if String.eqb k key then Some v else dict_lookup rest key
  end.

(** [d.get(key, fallback)] *)
Definition dict_get (d : py_dict) (key fallback : string) : string :=
  match dict_lookup d key with
  | Some v => v
  | None => fallback
  end.

(** An element of a list: a dict (a conversation turn) or a string. *)
Inductive item : Type :=
| Dict (d : py_dict)
| Str (s : string).

(** A component of the prompt, or the data handed to the condenser: a string
    or a list. *)
Inductive value : Type :=
| Text (s : string)
| Items (l : list item).

(** [bool(v)]: the empty string and the empty list are false. *)
Definition truthy (v : value) : bool :=
  match v with
  | Text s => Py.truthy_str s
  | Items [] => false
  | Items (_ :: _) => true
  end.

Module PyRepr.

Definition hex_digit (n : nat) : ascii :=
  if (n <? 10)%nat then ascii_of_nat (48 + n) else ascii_of_nat (87 + n).

(** Is the character shown as it is by [repr]?  Below 256 the characters
    that are not are the controls, DEL, 0x80 to 0xa0 and 0xad. *)
Definition printable (n : nat) : bool :=
  ((32 <=? n)%nat && (n <? 127)%nat)
  || ((161 <=? n)%nat && negb (n =? 173)%nat).

Definition backslash : ascii := ascii_of_nat 92.
Definition double_quote : ascii := ascii_of_nat 34.
Definition single_quote : ascii := ascii_of_nat 39.

Definition escape_char (quote c : ascii) : string :=
  let n := nat_of_ascii c in
  if Ascii.eqb c quote || (n =? 92)%nat then String backslash (String c EmptyString)
  else if (n =? 9)%nat then String backslash "t"
  else if (n =? 10)%nat then String backslash "n"
  else if (n =? 13)%nat then String backslash "r"
  else if printable n then String c EmptyString
  else String backslash (String "x" (String (hex_digit (n / 16))
                                      (String (hex_digit (n mod 16)) EmptyString))).

Fixpoint contains (c : ascii) (s : string) : bool :=
  match s with
  | EmptyString => false
  | String c' s' => Ascii.eqb c c' || contains c s'
  end.

Fixpoint escape (quote : ascii) (s : string) : string :=
  match s with
  | EmptyString => EmptyString
  | String c s' => escape_char quote c +:+ escape quote s'
  end.

(** [repr(s)] for a string: single quotes unless the string has a single
    quote and no double quote. *)
Definition repr_str (s : string) : string :=
  let quote : ascii :=
    if contains single_quote s && negb (contains double_quote s)
    then double_quote else single_quote in
  String quote (escape quote s +:+ String quote EmptyString).

(** [str(d)] for a dict. *)
Definition str_dict (d : py_dict) : string :=
  "{" +:+ Py.join ", " (map (fun kv => repr_str (fst kv) +:+ ": " +:+ repr_str (snd kv)) d)
      +:+ "}".

(** [str(x)] for a list element. *)
Definition str_item (x : item) : string :=
  match x with
  | Dict d => str_dict d
  | Str s => s
  end.

End PyRepr.

(** The estimator shared by the condenser and the prompt constructor: the
    injected [tokenizer_func] when there is one and it does not raise
    ([None] stands for a call that raises), else four characters a token. *)
Definition tokenizer : Type := string -> option Z.

(* ===================================================================== *)
(** ** contextual_memory_condenser_ai.py *)
(* ===================================================================== *)

Module ContextualMemoryCondenserAI.

(** The fields read by the methods. [llm_interface] is only tested for
    presence. *)
Record t := Build {
  llm_interface : bool;
  tokenizer_func : option tokenizer
}.

(** [ContextualMemoryCondenserAI._estimate_tokens] *)
Definition _estimate_tokens (self : t) (text : string) : Z :=
  match tokenizer_func self with
  | Some f =>
      match f text with
      | Some n => n
      | None => Py.len text / 4
      end
  | None => Py.len text / 4
  end.

(** [isinstance(item, dict) and 'content' in item] *)
Definition is_turn (x : item) : bool :=
  match x with
  | Dict d => match dict_lookup d "content" with Some _ => true | None => false end
  | Str _ => false
  end.

(** [f"{item.get('role', 'N/A')}: {item.get('content', '')}"] *)
Definition turn_line (x : item) : string :=
  match x with
  | Dict d => dict_get d "role" "N/A" +:+ ": " +:+ dict_get d "content" ""
  | Str s => s
  end.

(** The flat text of the data ([raw_text_representation]). *)
Definition raw_text_representation (data : value) : string :=
  match data with
  | Text s => s
  | Items l =>
      if forallb is_turn l then Py.join Py.newline (map turn_line l)
      else Py.join Py.newline (map PyRepr.str_item l)
  end.

(** [int(target_token_count * 3.5)]: the product is exact in double
    precision for every target below 2^50 in size, and [int] truncates
    towards zero. *)
Definition chars_3_5 (target_token_count : Z) : Z := Z.quot (7 * target_token_count) 2.

(** [int(target_token_count * 3.0)] *)
Definition chars_3_0 (target_token_count : Z) : Z := 3 * target_token_count.

(** [tokens > target_token_count * 1.2]: for an integer target of that
    size the double product lies on the same side of every integer as
    6/5 of the target. *)
Definition over_1_2 (tokens target_token_count : Z) : bool :=
  6 * target_token_count <? 5 * tokens.

(** [bool(relevance_query)] *)
Definition has_query (relevance_query : option string) : bool :=
  match relevance_query with
  | Some q => Py.truthy_str q
  | None => false
  end.

(** [ContextualMemoryCondenserAI.condense_information]; [information_type]
    is only logged. *)
Definition condense_information (self : t) (information_type : string)
    (data : value) (target_token_count : Z)
    (relevance_query : option string) (strategy : string) : string :=
  if negb (truthy data) then EmptyString
  else
    let raw := raw_text_representation data in
    let current_tokens := _estimate_tokens self raw in
    if current_tokens <=? target_token_count then raw
    else
      let condensed_text :=
        if String.eqb strategy "truncate_or_summarize_placeholder" then
          if llm_interface self && has_query relevance_query then
            Py.slice_to raw (chars_3_0 target_token_count)
          else
            Py.slice_to raw (chars_3_5 target_token_count)
        else Py.slice_to raw (chars_3_5 target_token_count) in
      let final_estimated_tokens := _estimate_tokens self condensed_text in
      let condensed_text :=
        if over_1_2 final_estimated_tokens target_token_count then
          Py.slice_to condensed_text (chars_3_0 target_token_count)
        else condensed_text in
      Py.strip condensed_text.

(** The default value of [strategy]. *)
Definition default_strategy : string := "truncate_or_summarize_placeholder".

End ContextualMemoryCondenserAI.

(* ===================================================================== *)
(** ** dynamic_prompt_constructor.py *)
(* ===================================================================== *)

Module DynamicPromptConstructor.

(** The field read by the methods. *)
Record t := Build {
  tokenizer_func : option tokenizer
}.

(** [DynamicPromptConstructor._estimate_tokens] *)
Definition _estimate_tokens (self : t) (text : string) : Z :=
  match tokenizer_func self with
  | Some f =>
      match f text with
      | Some n => n
      | None => Py.len text / 4
      end
  | None => Py.len text / 4
  end.

(** The local variables that live across iterations of the main loop. *)
Record locals := Locals {
  final_prompt_elements : list string;
  current_tokens : Z;
  processed_components : gmap string value
}.

Definition initial : locals :=
  {| final_prompt_elements := []; current_tokens := 0; processed_components := ∅ |}.

(** How an iteration of the main loop ends: it falls through to the next
    key, or it leaves the loop with [break]. *)
Inductive control : Type :=
| Next (st : locals)
| Break (st : locals).

Definition default_priority_order : list string :=
  ["user_query"; "system_message"; "task_instructions"; "history";
   "retrieved_knowledge"].

(** [f"{turn.get('role', 'unknown').capitalize()}: {str(turn.get('content', ''))}\n"];
    a list element that is a string has no [get]. *)
Definition turn_str (turn : item) : outcome string :=
  match turn with
  | Dict d =>
      Returns (Py.capitalize (dict_get d "role" "unknown") +:+ ": "
               +:+ dict_get d "content" "" +:+ Py.newline)
  | Str _ => Raises "AttributeError"
  end.

Section Build.

Variable self : t.
Variable components : gmap string value.
Variable max_tokens : Z.

(** The loop over [reversed(component_content)]: [turns] is what is
    left of the reversed list, newest turn first. *)
Fixpoint history_loop (current_tokens : Z) (turns : list item)
                      (history_buffer : list string) : outcome (list string) :=
  match turns with
  | [] => Returns history_buffer
  | turn :: rest =>
      s ← turn_str turn;
      if current_tokens
         + _estimate_tokens self (Py.join Py.newline history_buffer +:+ s)
         <=? max_tokens
      then history_loop current_tokens rest (s :: history_buffer)
      else Returns history_buffer
  end.

(** [temp_prompt_str] for one component. *)
Definition temp_prompt_str (current_tokens : Z) (key : string)
                           (component_content : value) : outcome string :=
  match component_content with
  | Items l =>
      if String.eqb key "history" then
        history_buffer ← history_loop current_tokens (rev l) [];
        Returns (match history_buffer with
                 | [] => EmptyString
                 | _ => Py.join Py.newline history_buffer
                 end)
      else Returns (Py.join Py.newline (map PyRepr.str_item l))
  | Text s => Returns s
  end.

(** [formatted_component_str] *)
Definition formatted_component_str (key temp : string) : string :=
  if String.eqb key "system_message" then temp
  else if String.eqb key "user_query" then "User: " +:+ temp
  else if String.eqb key "task_instructions" then "Instructions: " +:+ temp
  else if String.eqb key "retrieved_knowledge" then "Context: " +:+ temp
  else if String.eqb key "history" then temp
  else temp.

(** [key == 'user_query' or key == 'system_message'] *)
Definition critical (key : string) : bool :=
  String.eqb key "user_query" || String.eqb key "system_message".

(** The [if]/[else] that commits a formatted component or gives up. *)
Definition commit (key : string) (component_content : value)
                  (formatted : string) (st : locals) : control :=
  let component_tokens := _estimate_tokens self (formatted +:+ Py.newline) in
  if current_tokens st + component_tokens <=? max_tokens then
    Next {| final_prompt_elements := final_prompt_elements st ++ [formatted];
            current_tokens := current_tokens st + component_tokens;
            processed_components :=
              <[key := component_content]> (processed_components st) |}
  else
    match final_prompt_elements st with
    | [] =>
        if critical key then
          let available_chars_approx := (max_tokens - current_tokens st) * 3 in
          let truncated_content := Py.slice_to formatted available_chars_approx in
          Break {| final_prompt_elements := final_prompt_elements st ++ [truncated_content];
                   current_tokens :=
                     current_tokens st
                     + _estimate_tokens self (truncated_content +:+ Py.newline);
                   processed_components := processed_components st |}
        else Break st
    | _ :: _ => Break st
    end.

(** One iteration of [for key in priority_order]. *)
Definition iteration (key : string) (st : locals) : outcome control :=
  match components !! key with
  | None => Returns (Next st)
  | Some component_content =>
      if negb (truthy component_content) then Returns (Next st)
      else
        temp ← temp_prompt_str (current_tokens st) key component_content;
        Returns (commit key component_content (formatted_component_str key temp) st)
  end.

(** [for key in priority_order: ...] *)
Fixpoint main_loop (priority_order : list string) (st : locals) : outcome control :=
  match priority_order with
  | [] => Returns (Next st)
  | key :: rest =>
      c ← iteration key st;
      match c with
      | Next st' => main_loop rest st'
      | Break st' => Returns (Break st')
      end
  end.

Definition locals_of (c : control) : locals :=
  match c with Next st => st | Break st => st end.

(** What follows the loop: join, strip, re-estimate, and the cut of the
    whole prompt when there is no tokenizer. *)
Definition finish (st : locals) : string :=
  let final_prompt :=
    Py.strip (Py.join (Py.newline +:+ Py.newline) (final_prompt_elements st)) in
  let final_tokens_estimate := _estimate_tokens self final_prompt in
  if max_tokens <? final_tokens_estimate then
    match tokenizer_func self with
    | None =>
        let chars_to_keep := max_tokens * 3 in
        if chars_to_keep <? Py.len final_prompt
        then Py.slice_to final_prompt chars_to_keep
        else final_prompt
    | Some _ => final_prompt
    end
  else final_prompt.

(** [DynamicPromptConstructor.build_and_optimize_prompt] *)
Definition build_and_optimize_prompt (priority_order : option (list string))
  : outcome string :=
  let priority_order :=
    match priority_order with
    | None => default_priority_order
    | Some l => l
    end in
  c ← main_loop priority_order initial;
  Returns (finish (locals_of c)).

End Build.

End DynamicPromptConstructor.

(** The tokenizer of the modules' own self-tests: [len(text.split())]. *)
Definition simple_word_tokenizer : tokenizer :=
  fun text => Some (Py.count_words false text).

(* ===================================================================== *)
(** ** token_optimizer_module.py, continued: chunking *)
(* ===================================================================== *)

Module PyWords.

(** [text.split()]: the maximal runs of non-space characters, in order. A
    non-space character starts a new word when the next character is a
    space or the end of the text, and else goes in front of the word that
    the rest of the text starts with. *)
Fixpoint split (s : string) : list string :=
  match s with
  | EmptyString => []
  | String c s' =>
      if Py.isspace c then split s'
      else
        match split s' with
        | w :: ws =>
            match s' with
            | String c' _ =>
                if Py.isspace c' then String c EmptyString :: w :: ws
                else String c w :: ws
            | EmptyString => [String c EmptyString]
            end
        | [] => [String c EmptyString]
        end
  end.

End PyWords.

Module Chunking.

(** The local variables of [chunk_text_by_tokens] that live across
    iterations of its loop. *)
Record locals := Locals {
  chunks : list string;
  current_chunk_words : list string;
  current_estimated_tokens : Z
}.

Definition initial : locals :=
  {| chunks := []; current_chunk_words := []; current_estimated_tokens := 0 |}.

(** The body of [for word in words].  In the [else] branch the sum
    [current_estimated_tokens += word_tokens] is overwritten at once by the
    re-estimate; the list is never empty there, the word was just
    appended. *)
Definition step (max_tokens_per_chunk : Z) (st : locals) (word : string) : locals :=
  let word_plus_space := word +:+ " " in
  let word_tokens := TokenOptimizer.estimate_token_count word_plus_space in
  if (max_tokens_per_chunk <? current_estimated_tokens st + word_tokens)
     && match current_chunk_words st with [] => false | _ => true end
  then
    {| chunks := chunks st ++ [Py.join " " (current_chunk_words st)];
       current_chunk_words := [word];
       current_estimated_tokens := TokenOptimizer.estimate_token_count word |}
  else
    let words := current_chunk_words st ++ [word] in
    {| chunks := chunks st;
       current_chunk_words := words;
       current_estimated_tokens :=
         match words with
         | _ :: _ :: _ =>
             TokenOptimizer.estimate_token_count (Py.join " " words +:+ " ")
         | first :: _ => TokenOptimizer.estimate_token_count first
         | [] => current_estimated_tokens st + word_tokens
         end |}.

(** What follows the loop: the words still held make the last chunk. *)
Definition flush (st : locals) : list string :=
  match current_chunk_words st with
  | [] => chunks st
  | _ :: _ => chunks st ++ [Py.join " " (current_chunk_words st)]
  end.

(** [TokenOptimizer.chunk_text_by_tokens]; [tokenizer_model_name] is only
    logged and passed on. *)
Definition chunk_text_by_tokens (text : string) (max_tokens_per_chunk : Z)
  : list string :=
  if negb (Py.truthy_str (Py.strip text)) then []
  else
    let words := PyWords.split text in
    let chunks := flush (fold_left (step max_tokens_per_chunk) words initial) in
    match chunks with
    | [] => if Py.truthy_str text then [text] else []
    | _ :: _ => chunks
    end.

End Chunking.

(* ===================================================================== *)
(** ** llm_input_optimizer.py *)
(* ===================================================================== *)

Module LLMInputOptimizer.

(** [int(max_tokens * 3.5)], exact in double precision as in the condenser. *)
Definition cutoff_chars (max_tokens : Z) : Z := Z.quot (7 * max_tokens) 2.

(** [LLMInputOptimizer.preprocess_text].  The test
    [len(text) / 4 > max_tokens] compares an exact quarter with an integer,
    which is [len(text) > 4 * max_tokens]. *)
Definition preprocess_text (text : string) (max_tokens : Z) (strategy : string)
  : string :=
  if 4 * max_tokens <? Py.len text then
    if String.eqb strategy "truncate" then Py.slice_to text (cutoff_chars max_tokens)
    else if String.eqb strategy "summarize" then text
    else if String.eqb strategy "chunk" then text
    else text
  else text.

End LLMInputOptimizer.

(* ===================================================================== *)
(** ** main.py: how the modules are wired together *)
(* ===================================================================== *)

Module Main.

(** [tokenizer_fn = lambda text: token_optimizer.estimate_token_count(text)] *)
Definition tokenizer_fn : tokenizer :=
  fun text => Some (TokenOptimizer.estimate_token_count text).

(** [DynamicPromptConstructor(sys_logger, tokenizer_func=tokenizer_fn)] *)
Definition prompt_constructor : DynamicPromptConstructor.t :=
  DynamicPromptConstructor.Build (Some tokenizer_fn).

(** [ContextualMemoryCondenserAI(sys_logger, llm_interface=ai_interface,
    tokenizer_func=tokenizer_fn)] *)
Definition context_condenser : ContextualMemoryCondenserAI.t :=
  ContextualMemoryCondenserAI.Build true (Some tokenizer_fn).

End Main.

(* ===================================================================== *)
(** ** Sequences of calls on the history store *)
(* ===================================================================== *)

(** A call of one of the methods of [ContextManager] that change it. *)
Inductive store_call : Type :=
| CallAddMessage (role content : string)
| CallPrune (additional_tokens_to_add : Z)
| CallClear.

Definition store_apply (self : ContextManager.t) (c : store_call)
  : outcome ContextManager.t :=
  match c with
  | CallAddMessage role content => ContextManager.add_message self role content
  | CallPrune additional =>
      r ← ContextManager.prune_context_if_needed self additional;
      Returns (fst r)
  | CallClear => Returns (ContextManager.clear_context self)
  end.

Fixpoint store_run (self : ContextManager.t) (calls : list store_call)
  : outcome ContextManager.t :=
  match calls with
  | [] => Returns self
  | c :: rest =>
      self' ← store_apply self c;
      store_run self' rest
  end.

(* ===================================================================== *)
(** ** dynamic_prompt_constructor.py, with the effects of its collaborators *)
(* ===================================================================== *)

(** The prompt constructor again, this time with what its two collaborators
    do made explicit.  Both are handed in from outside and may keep state of
    their own (a log, a cache, a counter, a connection): every call of a
    method of the logger, and every call of the tokenizer, takes the state
    of the world and gives back a new one.  The texts of the log messages
    are built from values the method has already computed and are only
    handed to the logger; they are left out, the level of each call is
    kept. *)
Module Effects.

Section World.

Variable W : Type.

(** The fields of the constructor: a call of the logger at some level
    changes the world; a call of the tokenizer changes the world and returns
    a count, or raises ([None]). *)
Record t := Build {
  logger : string -> W -> W;
  tokenizer_func : option (string -> W -> option Z * W)
}.

(** A computation that runs in the world. *)
Definition io (A : Type) : Type := W -> outcome A * W.

Definition ret {A : Type} (a : A) : io A := fun w => (Returns a, w).

Definition lift {A : Type} (o : outcome A) : io A := fun w => (o, w).

Definition bind {A B : Type} (m : io A) (k : A -> io B) : io B :=
  fun w =>
    match m w with
    | (Returns a, w') => k a w'
    | (Raises e, w') => (Raises e, w')
    | (OutOfFuel, w') => (OutOfFuel, w')
    end.

Variable self : t.
Variable components : gmap string value.
Variable max_tokens : Z.

(** [self.logger.info(...)], [.warning(...)], [.error(...)] *)
Definition log (level : string) : io unit :=
  fun w => (Returns tt, logger self level w).

(** [DynamicPromptConstructor._estimate_tokens]: the [except] branch logs
    the error before it falls back. *)
Definition _estimate_tokens (text : string) : io Z :=
  match tokenizer_func self with
  | Some f =>
      fun w =>
        match f text w with
        | (Some n, w') => (Returns n, w')
        | (None, w') => (Returns (Py.len text / 4), logger self "error" w')
        end
  | None => ret (Py.len text / 4)
  end.

(** The loop over [reversed(component_content)].  [turn_tokens] is
    estimated for every turn, though it is not used afterwards. *)
Fixpoint history_loop (current_tokens : Z) (turns : list item)
                      (history_buffer : list string) : io (list string) :=
  match turns with
  | [] => ret history_buffer
  | turn :: rest =>
      bind (lift (DynamicPromptConstructor.turn_str turn)) (fun s =>
      bind (_estimate_tokens s) (fun turn_tokens =>
      bind (_estimate_tokens (Py.join Py.newline history_buffer +:+ s)) (fun n =>
      if current_tokens + n <=? max_tokens
      then history_loop current_tokens rest (s :: history_buffer)
      else bind (log "info") (fun _ => ret history_buffer))))
  end.

Definition temp_prompt_str (current_tokens : Z) (key : string)
                           (component_content : value) : io string :=
  match component_content with
  | Items l =>
      if String.eqb key "history" then
        bind (history_loop current_tokens (rev l) []) (fun history_buffer =>
        ret (match history_buffer with
             | [] => EmptyString
             | _ => Py.join Py.newline history_buffer
             end))
      else ret (Py.join Py.newline (map PyRepr.str_item l))
  | Text s => ret s
  end.

(** The [if]/[else] that commits a formatted component or gives up. *)
Definition commit (key : string) (component_content : value)
                  (formatted : string) (st : DynamicPromptConstructor.locals)
  : io DynamicPromptConstructor.control :=
  bind (_estimate_tokens (formatted +:+ Py.newline)) (fun component_tokens =>
  if DynamicPromptConstructor.current_tokens st + component_tokens <=? max_tokens then
    ret (DynamicPromptConstructor.Next
           {| DynamicPromptConstructor.final_prompt_elements :=
                DynamicPromptConstructor.final_prompt_elements st ++ [formatted];
              DynamicPromptConstructor.current_tokens :=
                DynamicPromptConstructor.current_tokens st + component_tokens;
              DynamicPromptConstructor.processed_components :=
                <[key := component_content]>
                  (DynamicPromptConstructor.processed_components st) |})
  else
    bind (log "warning") (fun _ =>
    match DynamicPromptConstructor.final_prompt_elements st with
    | [] =>
        if DynamicPromptConstructor.critical key then
          let available_chars_approx :=
            (max_tokens - DynamicPromptConstructor.current_tokens st) * 3 in
          let truncated_content := Py.slice_to formatted available_chars_approx in
          bind (_estimate_tokens (truncated_content +:+ Py.newline)) (fun n =>
          bind (log "info") (fun _ =>
          ret (DynamicPromptConstructor.Break
                 {| DynamicPromptConstructor.final_prompt_elements :=
                      DynamicPromptConstructor.final_prompt_elements st
                      ++ [truncated_content];
                    DynamicPromptConstructor.current_tokens :=
                      DynamicPromptConstructor.current_tokens st + n;
                    DynamicPromptConstructor.processed_components :=
                      DynamicPromptConstructor.processed_components st |})))
        else ret (DynamicPromptConstructor.Break st)
    | _ :: _ => ret (DynamicPromptConstructor.Break st)
    end)).

(** One iteration of [for key in priority_order]. *)
Definition iteration (key : string) (st : DynamicPromptConstructor.locals)
  : io DynamicPromptConstructor.control :=
  match components !! key with
  | None => ret (DynamicPromptConstructor.Next st)
  | Some component_content =>
      if negb (truthy component_content) then ret (DynamicPromptConstructor.Next st)
      else
        bind (temp_prompt_str (DynamicPromptConstructor.current_tokens st) key
                component_content) (fun temp =>
        commit key component_content
          (DynamicPromptConstructor.formatted_component_str key temp) st)
  end.

Fixpoint main_loop (priority_order : list string)
                   (st : DynamicPromptConstructor.locals)
  : io DynamicPromptConstructor.control :=
  match priority_order with
  | [] => ret (DynamicPromptConstructor.Next st)
  | key :: rest =>
      bind (iteration key st) (fun c =>
      match c with
      | DynamicPromptConstructor.Next st' => main_loop rest st'
      | DynamicPromptConstructor.Break st' => ret (DynamicPromptConstructor.Break st')
      end)
  end.

(** What follows the loop. *)
Definition finish (st : DynamicPromptConstructor.locals) : io string :=
  let final_prompt :=
    Py.strip (Py.join (Py.newline +:+ Py.newline)
                (DynamicPromptConstructor.final_prompt_elements st)) in
  bind (_estimate_tokens final_prompt) (fun final_tokens_estimate =>
  bind (log "info") (fun _ =>
  if max_tokens <? final_tokens_estimate then
    bind (log "error") (fun _ =>
    match tokenizer_func self with
    | None =>
        let chars_to_keep := max_tokens * 3 in
        if chars_to_keep <? Py.len final_prompt
        then bind (log "warning") (fun _ => ret (Py.slice_to final_prompt chars_to_keep))
        else ret final_prompt
    | Some _ => ret final_prompt
    end)
  else ret final_prompt)).

(** [DynamicPromptConstructor.build_and_optimize_prompt], from the first
    [logger.info] to the [return]. *)
Definition build_and_optimize_prompt (priority_order : option (list string))
  : io string :=
  let priority_order :=
    match priority_order with
    | None => DynamicPromptConstructor.default_priority_order
    | Some l => l
    end in
  bind (log "info") (fun _ =>
  bind (main_loop priority_order DynamicPromptConstructor.initial) (fun c =>
  finish (DynamicPromptConstructor.locals_of c))).

End World.

End Effects.

(* ===================================================================== *)
(** ** Vocabulary of the statements *)
(* ===================================================================== *)

(** The least integer that is at least a quarter of [n], written from the
    words "ceil(len(text)/4)". *)
Definition ceil_quarter (n : Z) : Z := - ((- n) / 4).

(** What every reachable history store satisfies: the running total is the
    sum of the stored costs, no stored cost is negative, and the total is
    within the budget. *)
Definition consistent (s : ContextManager.t) : Prop :=
  ContextManager.current_total_tokens s
  = ContextManager.total_cost (ContextManager.context_history s)
  /\ Forall (fun m => 0 <= ContextManager.tokens m) (ContextManager.context_history s)
  /\ ContextManager.current_total_tokens s <= ContextManager.max_tokens s.

(** The joined and stripped prompt that [finish] starts from. *)
Definition joined (st : DynamicPromptConstructor.locals) : string :=
  Py.strip (Py.join (Py.newline +:+ Py.newline)
              (DynamicPromptConstructor.final_prompt_elements st)).

(** A list element that is a dict. *)
Definition is_dict (x : item) : bool :=
  match x with Dict _ => true | Str _ => false end.

(** No list element under the key [history] is a bare string. *)
Definition history_of_dicts (components : gmap string value) : bool :=
  match components !! "history" with
  | Some (Items l) => forallb is_dict l
  | _ => true
  end.

(** The tokenizer of a constructor is deterministic, with [f] for the counts
    it returns: there is none and [f] is [None], or there is one, and in
    every state of the world it returns for a text what [f] gives for it
    (a count, or [None] when it raises). *)
Definition deterministic_tokenizer {W : Type} (self : Effects.t W)
    (f : option tokenizer) : Prop :=
  match Effects.tokenizer_func W self, f with
  | Some tok, Some g => forall (text : string) (w : W), fst (tok text w) = g text
  | None, None => True
  | _, _ => False
  end.

(** The formatted component under [key] does not fit after [st]: the key is
    present with a non-empty value, it renders to [formatted], and the
    running total plus the estimate of [formatted] and a line feed is above
    the budget. *)
Definition does_not_fit (self : DynamicPromptConstructor.t)
    (components : gmap string value) (max_tokens : Z)
    (key : string) (st : DynamicPromptConstructor.locals) (formatted : string) : Prop :=
  exists (component_content : value) (temp : string),
    components !! key = Some component_content
    /\ truthy component_content = true
    /\ DynamicPromptConstructor.temp_prompt_str self max_tokens
         (DynamicPromptConstructor.current_tokens st) key component_content
       = Returns temp
    /\ formatted = DynamicPromptConstructor.formatted_component_str key temp
    /\ max_tokens
       < DynamicPromptConstructor.current_tokens st
         + DynamicPromptConstructor._estimate_tokens self (formatted +:+ Py.newline).

(** Every stored message carries the estimate of its own content. *)
Definition costs_are_estimates (s : ContextManager.t) : Prop :=
  Forall (fun m => ContextManager.tokens m
                   = ContextManager._estimate_tokens (ContextManager.content m))
         (ContextManager.context_history s).

(** The line the prompt constructor makes of a history turn. *)
Definition turn_text (d : py_dict) : string :=
  Py.capitalize (dict_get d "role" "unknown") +:+ ": "
  +:+ dict_get d "content" "" +:+ Py.newline.

(** [key in components and components[key]]: the key is present and its
    value is not empty. *)
Definition present (components : gmap string value) (key : string) : bool :=
  match components !! key with
  | Some v => truthy v
  | None => false
  end.

(** [s] is the beginning of [text]. *)
Definition is_prefix (s text : string) : Prop :=
  exists n : nat, s = Py.prefix n text.

(** A group of words makes a chunk within the limit, unless it is a single
    word. *)
Definition chunk_bounded (max_tokens_per_chunk : Z) (g : list string) : Prop :=
  (2 <= length g)%nat ->
  TokenOptimizer.estimate_token_count (Py.join " " g) <= max_tokens_per_chunk.

(** The estimate that the chunking loop holds for the words of the current
    chunk. *)
Definition held (ws : list string) (tokens : Z) : Prop :=
  match ws with
  | [] => True
  | [w] => tokens = TokenOptimizer.estimate_token_count w
  | _ :: _ :: _ => tokens = TokenOptimizer.estimate_token_count (Py.join " " ws +:+ " ")
  end.

(** What the chunking loop keeps true after the words [seen]: the chunks
    made so far are groups of consecutive words, which with the words of the
    current chunk make up [seen]. *)
Definition chunk_invariant (max_tokens_per_chunk : Z) (st : Chunking.locals)
    (seen : list string) : Prop :=
  exists groups : list (list string),
    Chunking.chunks st = map (Py.join " ") groups
    /\ concat groups ++ Chunking.current_chunk_words st = seen
    /\ Forall (fun g => g <> []) groups
    /\ Forall (chunk_bounded max_tokens_per_chunk) groups
    /\ chunk_bounded max_tokens_per_chunk (Chunking.current_chunk_words st)
    /\ held (Chunking.current_chunk_words st) (Chunking.current_estimated_tokens st).

Example scenario_eviction :
  let m := ContextManager.init 10 in
  (m ← ContextManager.add_message m "user" "Hello";
   m ← ContextManager.add_message m "assistant" "World";
   m ← ContextManager.add_message m "user" "This is a test";
   m ← ContextManager.add_message m "assistant" "Another one";
   Returns (map snd (ContextManager.get_context m),
            ContextManager.get_current_token_count m))
  = Returns (["World"; "This is a test"; "Another one"], 9).
Proof. vm_compute. reflexivity. Qed.

(* ===================================================================== *)
(** ** Facts about the Python built-ins *)
(* ===================================================================== *)

Lemma ceil_quarter_spec (n : Z) :
  n <= 4 * ceil_quarter n < n + 4.
Proof.
  unfold ceil_quarter.
  pose proof (Z.div_mod (- n) 4 ltac:(lia)) as E.
  pose proof (Z.mod_pos_bound (- n) 4 ltac:(lia)) as B.
  lia.
Qed.

Lemma round_up_is_ceil (n : Z) : (n + 3) / 4 = ceil_quarter n.
Proof.
  pose proof (ceil_quarter_spec n) as C.
  pose proof (Z.div_mod (n + 3) 4 ltac:(lia)) as E.
  pose proof (Z.mod_pos_bound (n + 3) 4 ltac:(lia)) as B.
  lia.
Qed.

Lemma len_nonneg (s : string) : 0 <= Py.len s.
Proof. unfold Py.len. lia. Qed.

Lemma length_prefix (n : nat) (s : string) :
  String.length (Py.prefix n s) = Nat.min n (String.length s).
Proof.
  revert s. induction n as [|n IH]; intros [|c s]; simpl; auto.
Qed.

Lemma prefix_all (n : nat) (s : string) :
  (String.length s <= n)%nat -> Py.prefix n s = s.
Proof.
  revert s. induction n as [|n IH]; intros [|c s] H; simpl in *; auto; try lia.
  f_equal. apply IH. lia.
Qed.

Lemma len_slice_to_le (s : string) (n : Z) : Py.len (Py.slice_to s n) <= Py.len s.
Proof.
  unfold Py.slice_to, Py.len. destruct (0 <=? n); rewrite length_prefix; lia.
Qed.

Lemma len_slice_to_bound (s : string) (n : Z) :
  0 <= n -> Py.len (Py.slice_to s n) <= n.
Proof.
  intros H. unfold Py.slice_to, Py.len.
  destruct (Z.leb_spec 0 n); [|lia]. rewrite length_prefix. lia.
Qed.

Lemma slice_to_zero (s : string) : Py.slice_to s 0 = EmptyString.
Proof. reflexivity. Qed.

Lemma length_lstrip (s : string) :
  (String.length (Py.lstrip s) <= String.length s)%nat.
Proof.
  induction s as [|c s IH]; simpl; [lia|].
  destruct (Py.isspace c); simpl; lia.
Qed.

Lemma length_rstrip (s : string) :
  (String.length (Py.rstrip s) <= String.length s)%nat.
Proof.
  induction s as [|c s IH]; simpl; [lia|].
  destruct (Py.rstrip s); [destruct (Py.isspace c)|]; simpl in *; lia.
Qed.

Lemma len_strip_le (s : string) : Py.len (Py.strip s) <= Py.len s.
Proof.
  unfold Py.strip, Py.len.
  pose proof (length_rstrip (Py.lstrip s)). pose proof (length_lstrip s). lia.
Qed.

(* ===================================================================== *)
(** ** The fallback estimators *)
(* ===================================================================== *)

Lemma truthy_str_len (s : string) : Py.truthy_str s = false -> Py.len s = 0.
Proof. destruct s; simpl; [reflexivity | discriminate]. Qed.

Lemma rounding_estimator (s : string) :
  (if negb (Py.truthy_str s) then 0 else (Py.len s + 3) / 4) = ceil_quarter (Py.len s).
Proof.
  destruct (Py.truthy_str s) eqn:E; simpl.
  - apply round_up_is_ceil.
  - rewrite (truthy_str_len s E). reflexivity.
Qed.

(** C5, as the spec states it, fails for the prompt constructor: for a text
    of three characters its fallback estimate is 0, not 1. *)
Lemma fallback_estimate_not_ceil :
  DynamicPromptConstructor._estimate_tokens
    (DynamicPromptConstructor.Build None) "abc"
  <> ceil_quarter (Py.len "abc").
Proof. vm_compute. discriminate. Qed.

(** C5 (amended): [TokenOptimizer.estimate_token_count] and
    [ContextManager._estimate_tokens] return the ceiling of a quarter of the
    length; the fallback of [DynamicPromptConstructor._estimate_tokens],
    taken when no tokenizer is injected or when the injected one raises,
    returns the floor of a quarter of the length; all are 0 on the empty
    string. *)
Theorem fallback_estimators (text : string) :
  TokenOptimizer.estimate_token_count text = ceil_quarter (Py.len text)
  /\ ContextManager._estimate_tokens text = ceil_quarter (Py.len text)
  /\ DynamicPromptConstructor._estimate_tokens
       (DynamicPromptConstructor.Build None) text = Py.len text / 4
  /\ DynamicPromptConstructor._estimate_tokens
       (DynamicPromptConstructor.Build (Some (fun _ => None))) text = Py.len text / 4
  /\ TokenOptimizer.estimate_token_count "" = 0
  /\ ContextManager._estimate_tokens "" = 0
  /\ DynamicPromptConstructor._estimate_tokens
       (DynamicPromptConstructor.Build None) "" = 0.
Proof.
  repeat split; try reflexivity.
  - apply rounding_estimator.
  - apply rounding_estimator.
Qed.

(* ===================================================================== *)
(** ** The history store: pruning *)
(* ===================================================================== *)

Section Pruning.

Import ContextManager.

Local Arguments total_cost : simpl never.

Lemma total_cost_nil : total_cost [] = 0.
Proof. reflexivity. Qed.

Lemma total_cost_cons (m : message) (h : list message) :
  total_cost (m :: h) = tokens m + total_cost h.
Proof. reflexivity. Qed.

Lemma total_cost_app (h1 h2 : list message) :
  total_cost (h1 ++ h2) = total_cost h1 + total_cost h2.
Proof.
  induction h1 as [|m h1 IH]; [simpl; rewrite total_cost_nil; lia|].
  change ((m :: h1) ++ h2) with (m :: (h1 ++ h2)).
  rewrite !total_cost_cons, IH. lia.
Qed.

(** What the loop computes: it drops the first [k] messages, where [k] is
    the first count at which the test fails. *)
Lemma prune_loop_drops (h : list message) :
  forall (fuel : nat) (mx cur add : Z) (pruned : bool),
    (length h <= fuel)%nat ->
    exists k : nat,
      (k <= length h)%nat
      /\ prune_loop fuel (Build mx h cur) add pruned
         = Returns (Build mx (drop k h) (cur - total_cost (take k h)),
                    pruned || negb (Nat.eqb k 0))
      /\ (forall j : nat, (j < k)%nat ->
            mx < cur - total_cost (take j h) + add /\ drop j h <> [])
      /\ (cur - total_cost (take k h) + add <= mx \/ drop k h = []).
Proof.
  induction h as [|m rest IH]; intros fuel mx cur add pruned Hfuel.
  - exists 0%nat. repeat split; try (intros; lia).
    + destruct fuel; simpl; unfold loop_test; simpl;
        rewrite andb_false_r, orb_false_r, total_cost_nil, Z.sub_0_r; reflexivity.
    + right. reflexivity.
  - destruct (Z.ltb_spec mx (cur + add)) as [Hlt|Hge].
    + destruct fuel as [|fuel]; [simpl in Hfuel; lia|].
      destruct (IH fuel mx (cur - tokens m) add true) as (k & Hk & Hrun & Hbefore & Hafter).
      { simpl in Hfuel. lia. }
      exists (S k). split; [simpl; lia|]. split; [|split].
      * simpl. unfold loop_test. simpl.
        destruct (Z.ltb_spec mx (cur + add)); [|lia]. simpl.
        rewrite Hrun, total_cost_cons, orb_true_r. simpl.
        replace (cur - tokens m - total_cost (take k rest))
          with (cur - (tokens m + total_cost (take k rest))) by lia.
        reflexivity.
      * intros [|j] Hj; simpl.
        -- rewrite total_cost_nil. split; [lia | discriminate].
        -- destruct (Hbefore j ltac:(lia)) as [H1 H2]. rewrite total_cost_cons.
           split; [lia | exact H2].
      * simpl. rewrite total_cost_cons. destruct Hafter; [left; lia | right; assumption].
    + exists 0%nat. split; [lia|]. split; [|split].
      * destruct fuel; simpl; unfold loop_test; simpl;
          (destruct (Z.ltb_spec mx (cur + add)); [lia|]); simpl;
          rewrite orb_false_r, total_cost_nil, Z.sub_0_r; reflexivity.
      * intros j Hj. lia.
      * left. simpl. rewrite total_cost_nil. lia.
Qed.

(** The number of dropped messages is determined by the two conditions
    the loop leaves behind. *)
Lemma drop_count_unique (h : list message) (mx cur add : Z) (k1 k2 : nat) :
  (forall j : nat, (j < k1)%nat ->
     mx < cur - total_cost (take j h) + add /\ drop j h <> []) ->
  (cur - total_cost (take k2 h) + add <= mx \/ drop k2 h = []) ->
  (k1 <= k2)%nat.
Proof.
  intros Hbefore Hafter.
  destruct (Nat.le_gt_cases k1 k2) as [Hle|Hgt]; [exact Hle|].
  destruct (Hbefore k2 Hgt) as [H1 H2]. destruct Hafter; [lia | contradiction].
Qed.

Lemma loop_body_removes_one (s : t) (add : Z) :
  loop_test s add = true ->
  exists s', loop_body s = Returns s'
             /\ S (length (context_history s')) = length (context_history s)
             /\ context_history s' = drop 1 (context_history s).
Proof.
  unfold loop_test, loop_body. intros H.
  apply andb_true_iff in H as [_ H].
  destruct (context_history s) as [|m rest]; [discriminate|].
  eexists. split; [reflexivity|]. simpl. rewrite drop_0. auto.
Qed.

End Pruning.

(** C6: [prune_context_if_needed] removes a prefix of the history, oldest
    message first: it returns the history without its first [k] messages
    and the total less their costs; the loop test held before each of the
    [k] removals and fails afterwards.  So when the history is [m1; m2; m3]
    and exactly one message goes, the history left is [m2; m3]. *)
Theorem eviction_is_fifo (self : ContextManager.t) (additional_tokens_to_add : Z) :
  let h := ContextManager.context_history self in
  let cur := ContextManager.current_total_tokens self in
  let mx := ContextManager.max_tokens self in
  (exists k : nat,
     (k <= length h)%nat
     /\ ContextManager.prune_context_if_needed self additional_tokens_to_add
        = Returns (ContextManager.Build mx (drop k h)
                     (cur - ContextManager.total_cost (take k h)),
                   negb (Nat.eqb k 0))
     /\ (forall j : nat, (j < k)%nat ->
           mx < cur - ContextManager.total_cost (take j h) + additional_tokens_to_add
           /\ drop j h <> [])
     /\ (cur - ContextManager.total_cost (take k h) + additional_tokens_to_add <= mx
         \/ drop k h = []))
  /\ (forall (m1 m2 m3 : ContextManager.message) (self' : ContextManager.t) (pruned : bool),
        h = [m1; m2; m3] ->
        ContextManager.prune_context_if_needed self additional_tokens_to_add
          = Returns (self', pruned) ->
        length (ContextManager.context_history self') = 2%nat ->
        ContextManager.context_history self' = [m2; m3]
        /\ ContextManager.current_total_tokens self'
           = cur - ContextManager.tokens m1).
Proof.
  destruct self as [mx h cur]. simpl.
  destruct (prune_loop_drops h (length h) mx cur additional_tokens_to_add false
              (Nat.le_refl _)) as (k & Hk & Hrun & Hbefore & Hafter).
  split.
  - exists k. repeat split; auto; apply Hbefore; assumption.
  - intros m1 m2 m3 self' pruned -> Hret Hlen.
    unfold ContextManager.prune_context_if_needed in Hret. simpl in Hret, Hrun.
    rewrite Hrun in Hret. inversion Hret; subst; clear Hret. simpl in *.
    destruct k as [|[|[|[|k]]]]; simpl in Hlen; try discriminate; try lia.
    simpl. split; [reflexivity|]. unfold ContextManager.total_cost. simpl. lia.
Qed.

Lemma eviction_is_fifo_witness :
  let m1 := ContextManager.Message "user" "Hello" 2 in
  let m2 := ContextManager.Message "assistant" "World" 2 in
  let m3 := ContextManager.Message "user" "This is a test" 4 in
  exists self',
    ContextManager.prune_context_if_needed
      (ContextManager.Build 10 [m1; m2; m3] 8) 3 = Returns (self', true)
    /\ ContextManager.context_history self' = [m2; m3]
    /\ ContextManager.current_total_tokens self' = 8 - 2.
Proof.
  intros m1 m2 m3.
  exists (ContextManager.Build 10 [m2; m3] 6).
  split; [reflexivity|].
  exact (proj2 (eviction_is_fifo (ContextManager.Build 10 [m1; m2; m3] 8) 3)
           m1 m2 m3 (ContextManager.Build 10 [m2; m3] 6) true
           eq_refl eq_refl eq_refl).
Defined.

(** C10: the pruning loop terminates and does not raise: whenever its test
    holds the body removes exactly one message, so as many iterations as
    there are messages always suffice, more fuel changes nothing, and the
    method returns.  The flag it returns is [True] exactly when the history
    got shorter. *)
Theorem pruning_terminates (self : ContextManager.t) (additional_tokens_to_add : Z) :
  (forall s : ContextManager.t,
     ContextManager.loop_test s additional_tokens_to_add = true ->
     exists s', ContextManager.loop_body s = Returns s'
                /\ S (length (ContextManager.context_history s'))
                   = length (ContextManager.context_history s))
  /\ exists (self' : ContextManager.t) (pruned : bool),
       (forall fuel : nat,
          (length (ContextManager.context_history self) <= fuel)%nat ->
          ContextManager.prune_loop fuel self additional_tokens_to_add false
          = Returns (self', pruned))
       /\ ContextManager.prune_context_if_needed self additional_tokens_to_add
          = Returns (self', pruned)
       /\ (pruned = true <->
           (length (ContextManager.context_history self')
            < length (ContextManager.context_history self))%nat).
Proof.
  split.
  - intros s Hs. destruct (loop_body_removes_one s _ Hs) as (s' & H1 & H2 & _).
    exists s'. auto.
  - destruct self as [mx h cur]. simpl.
    destruct (prune_loop_drops h (length h) mx cur additional_tokens_to_add false
                (Nat.le_refl _)) as (k & Hk & Hrun & Hbefore & Hafter).
    eexists _, _. split; [|split; [exact Hrun|]].
    + intros fuel Hfuel.
      destruct (prune_loop_drops h fuel mx cur additional_tokens_to_add false Hfuel)
        as (k' & Hk' & Hrun' & Hbefore' & Hafter').
      assert (k' = k) as ->.
      { apply Nat.le_antisymm; eapply drop_count_unique; eauto. }
      exact Hrun'.
    + simpl. rewrite length_drop.
      destruct k; simpl; split; intros; try lia; try discriminate; reflexivity.
Qed.

Lemma pruning_terminates_witness :
  exists s',
    ContextManager.loop_body
      (ContextManager.Build 10 [ContextManager.Message "user" "Hello" 2] 8) = Returns s'
    /\ S (length (ContextManager.context_history s')) = 1%nat.
Proof.
  exact (proj1 (pruning_terminates (ContextManager.init 10) 3)
           (ContextManager.Build 10 [ContextManager.Message "user" "Hello" 2] 8)
           eq_refl).
Defined.

(* ===================================================================== *)
(** ** The history store: the budget invariant *)
(* ===================================================================== *)

Section Budget.

Import ContextManager.

Local Arguments total_cost : simpl never.

Lemma _estimate_tokens_nonneg (text : string) : 0 <= _estimate_tokens text.
Proof.
  unfold _estimate_tokens. pose proof (len_nonneg text).
  destruct (negb (Py.truthy_str text)); [lia|].
  apply Z.div_pos; lia.
Qed.

Lemma total_cost_take_nonneg (h : list message) (k : nat) :
  Forall (fun m => 0 <= tokens m) h -> 0 <= total_cost (take k h).
Proof.
  intros H. revert k. induction H as [|m h Hm Hh IH]; intros [|k]; simpl;
    rewrite ?total_cost_nil, ?total_cost_cons; try lia.
  specialize (IH k). lia.
Qed.

Lemma total_cost_take_drop (h : list message) (k : nat) :
  total_cost h = total_cost (take k h) + total_cost (drop k h).
Proof. rewrite <- total_cost_app, take_drop. reflexivity. Qed.

Lemma add_message_consistent (s : t) (role content : string) :
  consistent s ->
  exists s', add_message s role content = Returns s'
             /\ consistent s' /\ max_tokens s' = max_tokens s.
Proof.
  intros (Hsum & Hpos & Hle). destruct s as [mx h cur]. simpl in *.
  unfold add_message, prune_context_if_needed. simpl.
  set (cost := _estimate_tokens content).
  destruct (prune_loop_drops h (length h) mx cur cost false (Nat.le_refl _))
    as (k & Hk & Hrun & _ & _).
  rewrite Hrun. simpl.
  pose proof (total_cost_take_nonneg h k Hpos) as Htake.
  pose proof (total_cost_take_drop h k) as Hsplit.
  pose proof (_estimate_tokens_nonneg content) as Hcost. fold cost in Hcost.
  destruct (Z.leb_spec (cur - total_cost (take k h) + cost) mx) as [Hfit|Hnofit].
  - eexists. split; [reflexivity|]. split; [|reflexivity].
    unfold consistent. simpl. rewrite total_cost_app, total_cost_cons, total_cost_nil.
    simpl. split; [lia|]. split; [|lia].
    apply Forall_app. split.
    + apply Forall_drop. exact Hpos.
    + constructor; [exact Hcost | constructor].
  - eexists. split; [reflexivity|]. split; [|reflexivity].
    unfold consistent. simpl. split; [lia|]. split; [|lia].
    apply Forall_drop. exact Hpos.
Qed.

Lemma add_messages_consistent (calls : list (string * string)) :
  forall s : t,
    consistent s ->
    exists s', add_messages s calls = Returns s'
               /\ consistent s' /\ max_tokens s' = max_tokens s.
Proof.
  induction calls as [|[role content] rest IH]; intros s Hs.
  - exists s. auto.
  - destruct (add_message_consistent s role content Hs) as (s1 & Hadd & Hs1 & Hmx1).
    destruct (IH s1 Hs1) as (s2 & Hrun & Hs2 & Hmx2).
    exists s2. simpl. rewrite Hadd. simpl. rewrite Hrun.
    split; [reflexivity|]. split; [exact Hs2 | congruence].
Qed.

Lemma init_consistent (mx : Z) : 0 <= mx -> consistent (init mx).
Proof.
  intros H. unfold consistent, init. simpl. rewrite total_cost_nil.
  repeat split; [constructor | exact H].
Qed.

Lemma oversized_message_rejected (mx : Z) (role content : string) :
  mx < _estimate_tokens content ->
  add_message (init mx) role content = Returns (init mx).
Proof.
  intros H. unfold add_message, prune_context_if_needed, init. simpl.
  unfold loop_test. simpl. rewrite andb_false_r. simpl.
  destruct (Z.leb_spec (0 + _estimate_tokens content) mx); [lia | reflexivity].
Qed.

End Budget.

(** C2, as the spec states it, fails for a negative budget: the count of the
    empty store, 0, is already above it and stays there. *)
Lemma negative_budget_exceeded :
  exists s',
    ContextManager.add_messages (ContextManager.init (-1)) [("user", "hi")] = Returns s'
    /\ ~ (ContextManager.get_current_token_count s' <= ContextManager.max_tokens s').
Proof.
  eexists. split; [vm_compute; reflexivity|]. vm_compute. intros H. apply H. reflexivity.
Qed.

(** C2 (amended): for a budget [max_tokens >= 0], every sequence of
    [add_message] calls on a fresh [ContextManager] returns without raising
    and leaves [get_current_token_count() <= max_tokens] (every prefix of a
    sequence of calls is such a sequence, so this holds after every call);
    the count is the sum of the stored costs.  For any budget, a message
    whose estimate alone exceeds it is not stored by the empty store, which
    stays empty with count 0. *)
Theorem history_within_budget (max_tokens : Z) (calls : list (string * string)) :
  0 <= max_tokens ->
  (exists s',
     ContextManager.add_messages (ContextManager.init max_tokens) calls = Returns s'
     /\ ContextManager.get_current_token_count s' <= max_tokens
     /\ ContextManager.get_current_token_count s'
        = ContextManager.total_cost (ContextManager.context_history s'))
  /\ (forall (mx : Z) (role content : string),
        mx < ContextManager._estimate_tokens content ->
        ContextManager.add_message (ContextManager.init mx) role content
        = Returns (ContextManager.init mx)
        /\ ContextManager.context_history (ContextManager.init mx) = []
        /\ ContextManager.get_current_token_count (ContextManager.init mx) = 0).
Proof.
  intros Hmx. split.
  - destruct (add_messages_consistent calls _ (init_consistent max_tokens Hmx))
      as (s' & Hrun & (Hsum & _ & Hle) & Hsame).
    exists s'. split; [exact Hrun|]. unfold ContextManager.get_current_token_count.
    simpl in Hsame. split; [lia | exact Hsum].
  - intros mx role content H. split; [|split; reflexivity].
    apply oversized_message_rejected. exact H.
Qed.

Lemma history_within_budget_witness :
  (exists s',
     ContextManager.add_messages (ContextManager.init 10)
       [("user", "Hello"); ("assistant", "World"); ("user", "This is a test");
        ("assistant", "Another one")] = Returns s'
     /\ ContextManager.get_current_token_count s' <= 10
     /\ ContextManager.get_current_token_count s'
        = ContextManager.total_cost (ContextManager.context_history s'))
  /\ ContextManager.add_message (ContextManager.init 10) "user"
       "This single message is far too long for the tiny context limit of ten tokens"
     = Returns (ContextManager.init 10).
Proof.
  destruct (history_within_budget 10
              [("user", "Hello"); ("assistant", "World"); ("user", "This is a test");
               ("assistant", "Another one")] ltac:(lia)) as [H1 H2].
  split; [exact H1|].
  apply (H2 10 "user"
           "This single message is far too long for the tiny context limit of ten tokens").
  vm_compute. reflexivity.
Defined.

(* ===================================================================== *)
(** ** The condenser *)
(* ===================================================================== *)

Section Condenser.

Import ContextualMemoryCondenserAI.

Lemma raw_of_falsy (data : value) :
  truthy data = false -> raw_text_representation data = EmptyString.
Proof.
  destruct data as [[|c s]|[|x l]]; simpl; intros H; try discriminate; reflexivity.
Qed.

Lemma strip_empty : Py.strip EmptyString = EmptyString.
Proof. reflexivity. Qed.

Lemma chars_3_5_nonneg (target : Z) : 0 <= target -> 0 <= chars_3_5 target.
Proof.
  intros H. unfold chars_3_5. rewrite Z.quot_div_nonneg by lia.
  apply Z.div_pos; lia.
Qed.

Lemma chars_3_0_le_3_5 (target : Z) : 0 <= target -> chars_3_0 target <= chars_3_5 target.
Proof.
  intros H. unfold chars_3_0, chars_3_5. rewrite Z.quot_div_nonneg by lia.
  pose proof (Z.div_mod (7 * target) 2 ltac:(lia)).
  pose proof (Z.mod_pos_bound (7 * target) 2 ltac:(lia)). lia.
Qed.

(** Whatever branch is taken once the data is over the target, the text
    returned is no longer than [int(target * 3.5)]. *)
Lemma condensed_length (self : t) (info : string) (data : value) (target : Z)
      (query : option string) (strategy : string) :
  0 <= target ->
  target < _estimate_tokens self (raw_text_representation data) ->
  Py.len (condense_information self info data target query strategy)
  <= chars_3_5 target.
Proof.
  intros Ht Hover. unfold condense_information.
  pose proof (chars_3_5_nonneg target Ht) as H35.
  pose proof (chars_3_0_le_3_5 target Ht) as H30.
  assert (0 <= chars_3_0 target) as H30' by (unfold chars_3_0; lia).
  destruct (truthy data); simpl; [|exact H35].
  destruct (Z.leb_spec (_estimate_tokens self (raw_text_representation data)) target);
    [lia|].
  set (raw := raw_text_representation data).
  match goal with
  | |- Py.len (Py.strip (if ?c then Py.slice_to ?x _ else _)) <= _ =>
      assert (Py.len x <= chars_3_5 target) as Hx
  end.
  { pose proof (len_slice_to_bound raw (chars_3_5 target) H35).
    pose proof (len_slice_to_bound raw (chars_3_0 target) H30').
    destruct (String.eqb strategy _); [destruct (llm_interface self && has_query query)|];
      lia. }
  match goal with
  | |- Py.len (Py.strip ?y) <= _ => pose proof (len_strip_le y) as Hs;
                                     assert (Py.len y <= chars_3_5 target); [|lia]
  end.
  match goal with
  | |- Py.len (if ?c then Py.slice_to ?x ?n else _) <= _ =>
      destruct c; [pose proof (len_slice_to_le x n); lia | exact Hx]
  end.
Qed.

End Condenser.

(** C3, as the spec states it, fails when the text already estimates within
    the target: with target 0, a text of three characters estimates at 0
    tokens and is returned as it is. *)
Lemma zero_target_keeps_short_text :
  ContextualMemoryCondenserAI.condense_information
    (ContextualMemoryCondenserAI.Build false None) "document_text"
    (Text "abc") 0 None ContextualMemoryCondenserAI.default_strategy
  <> EmptyString.
Proof. vm_compute. discriminate. Qed.

(** With a negative target the slices count from the end of the text, and
    what is left of it is returned. *)
Example negative_target_keeps_a_prefix :
  ContextualMemoryCondenserAI.condense_information
    (ContextualMemoryCondenserAI.Build false None) "document_text"
    (Text "hello world") (-1) None ContextualMemoryCondenserAI.default_strategy
  = "hello".
Proof. vm_compute. reflexivity. Qed.

(** C3 (amended): with [target_token_count = 0], every source whose flat
    text estimates above 0 tokens is condensed to the empty string, for
    every strategy, relevance query and tokenizer; the call returns. *)
Theorem zero_target_condenses_to_empty
    (self : ContextualMemoryCondenserAI.t) (information_type : string)
    (data : value) (relevance_query : option string) (strategy : string) :
  0 < ContextualMemoryCondenserAI._estimate_tokens self
        (ContextualMemoryCondenserAI.raw_text_representation data) ->
  ContextualMemoryCondenserAI.condense_information self information_type data 0
    relevance_query strategy = EmptyString.
Proof.
  intros Hover. unfold ContextualMemoryCondenserAI.condense_information.
  destruct (truthy data); simpl; [|reflexivity].
  destruct (Z.leb_spec (ContextualMemoryCondenserAI._estimate_tokens self
                          (ContextualMemoryCondenserAI.raw_text_representation data)) 0);
    [lia|].
  change (ContextualMemoryCondenserAI.chars_3_0 0) with 0.
  change (ContextualMemoryCondenserAI.chars_3_5 0) with 0.
  rewrite !slice_to_zero.
  destruct (String.eqb strategy _);
    [destruct (ContextualMemoryCondenserAI.llm_interface self
               && ContextualMemoryCondenserAI.has_query relevance_query)|];
    destruct (ContextualMemoryCondenserAI.over_1_2 _ 0); reflexivity.
Qed.

Lemma zero_target_condenses_to_empty_witness :
  ContextualMemoryCondenserAI.condense_information
    (ContextualMemoryCondenserAI.Build false None) "document_text"
    (Text "This is a short text.") 0 None ContextualMemoryCondenserAI.default_strategy
  = EmptyString.
Proof.
  apply zero_target_condenses_to_empty. vm_compute. reflexivity.
Defined.

(** C4, as the spec states it, fails: a text within the target is returned
    with its surrounding whitespace, not stripped. *)
Lemma short_text_not_stripped :
  ContextualMemoryCondenserAI.condense_information
    (ContextualMemoryCondenserAI.Build false None) "document_text"
    (Text " a ") 50 None ContextualMemoryCondenserAI.default_strategy
  <> Py.strip (ContextualMemoryCondenserAI.raw_text_representation (Text " a ")).
Proof. vm_compute. discriminate. Qed.

(** C4 (amended): for every source whose flat text estimates at or below
    the target, [condense_information] returns that flat text unchanged
    (whitespace included); condensing the returned text again, with any
    query and strategy, returns it unchanged. *)
Theorem short_source_returned_unchanged
    (self : ContextualMemoryCondenserAI.t) (information_type : string)
    (data : value) (target_token_count : Z)
    (relevance_query : option string) (strategy : string) :
  ContextualMemoryCondenserAI._estimate_tokens self
    (ContextualMemoryCondenserAI.raw_text_representation data) <= target_token_count ->
  let once :=
    ContextualMemoryCondenserAI.condense_information self information_type data
      target_token_count relevance_query strategy in
  once = ContextualMemoryCondenserAI.raw_text_representation data
  /\ forall (information_type' : string) (relevance_query' : option string)
            (strategy' : string),
       ContextualMemoryCondenserAI.condense_information self information_type'
         (Text once) target_token_count relevance_query' strategy' = once.
Proof.
  intros Hfit once.
  assert (once = ContextualMemoryCondenserAI.raw_text_representation data) as Honce.
  { subst once. unfold ContextualMemoryCondenserAI.condense_information.
    destruct (truthy data) eqn:Hd; simpl.
    - destruct (Z.leb_spec (ContextualMemoryCondenserAI._estimate_tokens self
                (ContextualMemoryCondenserAI.raw_text_representation data))
                target_token_count); [reflexivity | lia].
    - symmetry. apply raw_of_falsy. exact Hd. }
  split; [exact Honce|].
  intros information_type' relevance_query' strategy'. rewrite Honce.
  unfold ContextualMemoryCondenserAI.condense_information.
  destruct (truthy (Text _)) eqn:Hd; simpl.
  - destruct (Z.leb_spec (ContextualMemoryCondenserAI._estimate_tokens self
              (ContextualMemoryCondenserAI.raw_text_representation data))
              target_token_count); [reflexivity | lia].
  - simpl in Hd. destruct (ContextualMemoryCondenserAI.raw_text_representation data);
      [reflexivity | discriminate].
Qed.

Lemma short_source_returned_unchanged_witness :
  let self := ContextualMemoryCondenserAI.Build false (Some simple_word_tokenizer) in
  let once :=
    ContextualMemoryCondenserAI.condense_information self "document_text"
      (Text "This is a short text.") 50 None
      ContextualMemoryCondenserAI.default_strategy in
  once = "This is a short text."
  /\ ContextualMemoryCondenserAI.condense_information self "document_text"
       (Text once) 50 None ContextualMemoryCondenserAI.default_strategy = once.
Proof.
  intros self once.
  destruct (short_source_returned_unchanged self "document_text"
              (Text "This is a short text.") 50 None
              ContextualMemoryCondenserAI.default_strategy
              ltac:(vm_compute; discriminate)) as [H1 H2].
  split; [exact H1|]. apply H2.
Defined.

(** C9, as stated, fails in its bound on the estimate: with the word-count
    tokenizer of the module's own self-test, ten words condensed to a target
    of 2 come back as three words, and 3 is above 2 * 1.2. *)
Lemma condensed_estimate_above_overshoot :
  let self := ContextualMemoryCondenserAI.Build false (Some simple_word_tokenizer) in
  let out :=
    ContextualMemoryCondenserAI.condense_information self "document_text"
      (Text "a a a a a a a a a a") 2 None
      ContextualMemoryCondenserAI.default_strategy in
  out = "a a a"
  /\ ContextualMemoryCondenserAI._estimate_tokens self out = 3
  /\ ~ (5 * ContextualMemoryCondenserAI._estimate_tokens self out <= 6 * 2).
Proof.
  vm_compute. repeat split. intros H. apply H. reflexivity.
Qed.

(** C9 (amended): for a target [>= 0] and a source whose flat text
    estimates above it, the returned text has at most
    [int(target_token_count * 3.5)] characters, whatever the tokenizer,
    query and strategy; when no tokenizer is injected its estimate is at
    most the target itself. *)
Theorem condensed_text_bounded
    (self : ContextualMemoryCondenserAI.t) (information_type : string)
    (data : value) (target_token_count : Z)
    (relevance_query : option string) (strategy : string) :
  0 <= target_token_count ->
  target_token_count
  < ContextualMemoryCondenserAI._estimate_tokens self
      (ContextualMemoryCondenserAI.raw_text_representation data) ->
  let out :=
    ContextualMemoryCondenserAI.condense_information self information_type data
      target_token_count relevance_query strategy in
  Py.len out <= ContextualMemoryCondenserAI.chars_3_5 target_token_count
  /\ (ContextualMemoryCondenserAI.tokenizer_func self = None ->
      ContextualMemoryCondenserAI._estimate_tokens self out <= target_token_count).
Proof.
  intros Ht Hover out.
  pose proof (condensed_length self information_type data target_token_count
                relevance_query strategy Ht Hover) as Hlen.
  fold out in Hlen. split; [exact Hlen|].
  intros Hnone. unfold ContextualMemoryCondenserAI._estimate_tokens. rewrite Hnone.
  unfold ContextualMemoryCondenserAI.chars_3_5 in Hlen.
  rewrite Z.quot_div_nonneg in Hlen by lia.
  pose proof (Z.div_mod (7 * target_token_count) 2 ltac:(lia)).
  pose proof (Z.mod_pos_bound (7 * target_token_count) 2 ltac:(lia)).
  pose proof (Z.div_mod (Py.len out) 4 ltac:(lia)).
  pose proof (Z.mod_pos_bound (Py.len out) 4 ltac:(lia)).
  lia.
Qed.

Lemma condensed_text_bounded_witness :
  let self := ContextualMemoryCondenserAI.Build false None in
  let out :=
    ContextualMemoryCondenserAI.condense_information self "document_text"
      (Text "This is a very long document about artificial intelligence. ") 5 None
      ContextualMemoryCondenserAI.default_strategy in
  Py.len out <= 17
  /\ ContextualMemoryCondenserAI._estimate_tokens self out <= 5.
Proof.
  intros self out.
  destruct (condensed_text_bounded self "document_text"
              (Text "This is a very long document about artificial intelligence. ")
              5 None ContextualMemoryCondenserAI.default_strategy
              ltac:(lia) ltac:(vm_compute; reflexivity)) as [H1 H2].
  split; [exact H1 | exact (H2 eq_refl)].
Defined.

(* ===================================================================== *)
(** ** The prompt constructor: the final cut *)
(* ===================================================================== *)

Section FinalCut.

Import DynamicPromptConstructor.

Lemma fallback_estimate (self : t) (text : string) :
  tokenizer_func self = None -> _estimate_tokens self text = Py.len text / 4.
Proof. intros H. unfold _estimate_tokens. rewrite H. reflexivity. Qed.

Lemma finish_within_budget (self : t) (max_tokens : Z) (st : locals) :
  tokenizer_func self = None ->
  0 <= max_tokens ->
  _estimate_tokens self (finish self max_tokens st) <= max_tokens
  /\ (max_tokens < _estimate_tokens self (joined st) ->
      finish self max_tokens st = Py.slice_to (joined st) (max_tokens * 3))
  /\ (_estimate_tokens self (joined st) <= max_tokens ->
      finish self max_tokens st = joined st).
Proof.
  intros Hnone Hmax. unfold finish. fold (joined st). rewrite Hnone.
  rewrite !(fallback_estimate self _ Hnone).
  pose proof (len_nonneg (joined st)) as Hlen.
  pose proof (Z.div_mod (Py.len (joined st)) 4 ltac:(lia)) as Hdiv.
  pose proof (Z.mod_pos_bound (Py.len (joined st)) 4 ltac:(lia)) as Hmod.
  destruct (Z.ltb_spec max_tokens (Py.len (joined st) / 4)) as [Hover|Hfits].
  - destruct (Z.ltb_spec (max_tokens * 3) (Py.len (joined st))) as [Hlong|Hshort];
      [|lia].
    pose proof (len_slice_to_bound (joined st) (max_tokens * 3) ltac:(lia)) as Hcut.
    pose proof (len_nonneg (Py.slice_to (joined st) (max_tokens * 3))) as Hcut0.
    pose proof (Z.div_mod (Py.len (Py.slice_to (joined st) (max_tokens * 3))) 4
                  ltac:(lia)).
    pose proof (Z.mod_pos_bound (Py.len (Py.slice_to (joined st) (max_tokens * 3))) 4
                  ltac:(lia)).
    split; [lia|]. split; [reflexivity | lia].
  - split; [lia|]. split; [lia | reflexivity].
Qed.

Lemma history_loop_returns (self : t) (max_tokens cur : Z) (turns : list item) :
  forallb is_dict turns = true ->
  forall buffer, exists out, history_loop self max_tokens cur turns buffer = Returns out.
Proof.
  induction turns as [|[d|s] rest IH]; simpl; intros H buffer.
  - eexists. reflexivity.
  - match goal with |- context [if ?c then _ else _] => destruct c end.
    + apply IH. exact H.
    + eexists. reflexivity.
  - discriminate.
Qed.

Lemma forallb_rev {A : Type} (f : A -> bool) (l : list A) :
  forallb f l = true -> forallb f (rev l) = true.
Proof.
  rewrite !forallb_forall. intros H x Hx. apply H. apply in_rev. exact Hx.
Qed.

Lemma iteration_returns (self : t) (components : gmap string value) (max_tokens : Z)
      (key : string) (st : locals) :
  history_of_dicts components = true ->
  exists c, iteration self components max_tokens key st = Returns c.
Proof.
  intros Hh. unfold iteration.
  destruct (components !! key) as [cc|] eqn:Hk; [|eexists; reflexivity].
  destruct (negb (truthy cc)); [eexists; reflexivity|].
  unfold temp_prompt_str. destruct cc as [s|l]; [eexists; reflexivity|].
  destruct (String.eqb_spec key "history") as [->|Hne]; [|eexists; reflexivity].
  unfold history_of_dicts in Hh. rewrite Hk in Hh.
  destruct (history_loop_returns self max_tokens (current_tokens st) (rev l)
              (forallb_rev _ _ Hh) []) as [out Hout].
  rewrite Hout. eexists. reflexivity.
Qed.

Lemma main_loop_returns (self : t) (components : gmap string value) (max_tokens : Z)
      (priority_order : list string) :
  history_of_dicts components = true ->
  forall st, exists c,
    main_loop self components max_tokens priority_order st = Returns c.
Proof.
  intros Hh. induction priority_order as [|key rest IH]; intros st; simpl.
  - eexists. reflexivity.
  - destruct (iteration_returns self components max_tokens key st Hh) as [c Hc].
    rewrite Hc. simpl. destruct c as [st'|st']; [apply IH | eexists; reflexivity].
Qed.

End FinalCut.

(** With the word-count tokenizer and a budget of one token, the system
    message "a b c" is cut to three characters, "a b", which counts two
    tokens, and that is what is returned. *)
Lemma injected_tokenizer_over_budget :
  let self := DynamicPromptConstructor.Build (Some simple_word_tokenizer) in
  exists prompt,
    DynamicPromptConstructor.build_and_optimize_prompt self
      {[ "system_message" := Text "a b c" ]} 1 None = Returns prompt
    /\ ~ (DynamicPromptConstructor._estimate_tokens self prompt <= 1).
Proof.
  exists "a b". split; [vm_compute; reflexivity|].
  vm_compute. intros H. apply H. reflexivity.
Qed.

(** C1, as the spec states it, fails when a tokenizer is injected: the final
    cut is skipped then.  With the tokenizer that [main.py] injects and a
    budget of three tokens, three components of three characters cost one
    token each and are all committed; the joined prompt has thirteen
    characters and estimates at four tokens, and it is returned whole, four
    characters longer than the [max_tokens * 3] a final cut would leave. *)
Lemma wired_tokenizer_over_budget :
  exists prompt,
    DynamicPromptConstructor.build_and_optimize_prompt Main.prompt_constructor
      (<[ "a" := Text "abc" ]> (<[ "b" := Text "def" ]> {[ "c" := Text "ghi" ]}))
      3 (Some ["a"; "b"; "c"]) = Returns prompt
    /\ ~ (DynamicPromptConstructor._estimate_tokens Main.prompt_constructor prompt <= 3)
    /\ 3 * 3 < Py.len prompt.
Proof.
  eexists. split; [vm_compute; reflexivity|]. split.
  - vm_compute. intros H. apply H. reflexivity.
  - vm_compute. reflexivity.
Qed.

(** Nor does it hold for a negative budget, which no estimate can meet. *)
Example negative_budget_prompt :
  let self := DynamicPromptConstructor.Build None in
  DynamicPromptConstructor.build_and_optimize_prompt self
    (<[ "system_message" := Text "S" ]> {[ "user_query" := Text "Q" ]}) (-1)
    (Some ["user_query"; "system_message"]) = Returns "U"
  /\ DynamicPromptConstructor._estimate_tokens self "U" = 0.
Proof. vm_compute. split; reflexivity. Qed.

(** C1 (amended): when no tokenizer is injected and [max_tokens >= 0], the
    string returned by [build_and_optimize_prompt] estimates at no more than
    [max_tokens]: when the joined prompt estimates above the budget it is
    cut to its first [max_tokens * 3] characters, and the call returns
    whenever the list under [history] holds only dicts.  When a tokenizer is
    injected no final truncation is applied: what is returned is the joined
    and stripped prompt as it is, whatever its estimate. *)
Theorem final_cut_enforces_budget
    (self : DynamicPromptConstructor.t) (components : gmap string value)
    (max_tokens : Z) (priority_order : option (list string)) :
  (DynamicPromptConstructor.tokenizer_func self = None ->
   0 <= max_tokens ->
   (forall st : DynamicPromptConstructor.locals,
      max_tokens < DynamicPromptConstructor._estimate_tokens self (joined st) ->
      DynamicPromptConstructor.finish self max_tokens st
      = Py.slice_to (joined st) (max_tokens * 3))
   /\ (forall prompt : string,
         DynamicPromptConstructor.build_and_optimize_prompt self components max_tokens
           priority_order = Returns prompt ->
         DynamicPromptConstructor._estimate_tokens self prompt <= max_tokens)
   /\ (history_of_dicts components = true ->
       exists prompt : string,
         DynamicPromptConstructor.build_and_optimize_prompt self components max_tokens
           priority_order = Returns prompt))
  /\ (forall f : tokenizer,
        DynamicPromptConstructor.tokenizer_func self = Some f ->
        (forall st : DynamicPromptConstructor.locals,
           DynamicPromptConstructor.finish self max_tokens st = joined st)
        /\ (forall c : DynamicPromptConstructor.control,
              DynamicPromptConstructor.main_loop self components max_tokens
                (match priority_order with
                 | Some l => l
                 | None => DynamicPromptConstructor.default_priority_order
                 end) DynamicPromptConstructor.initial = Returns c ->
              DynamicPromptConstructor.build_and_optimize_prompt self components
                max_tokens priority_order
              = Returns (joined (DynamicPromptConstructor.locals_of c)))).
Proof.
  split.
  - intros Hnone Hmax. split; [|split].
    + intros st. apply (finish_within_budget self max_tokens st Hnone Hmax).
    + intros prompt. unfold DynamicPromptConstructor.build_and_optimize_prompt.
      destruct (DynamicPromptConstructor.main_loop _ _ _ _ _) as [c| |]; simpl;
        intros H; inversion H; subst.
      apply (finish_within_budget self max_tokens _ Hnone Hmax).
    + intros Hh. unfold DynamicPromptConstructor.build_and_optimize_prompt.
      destruct (main_loop_returns self components max_tokens
                  (match priority_order with
                   | Some l => l
                   | None => DynamicPromptConstructor.default_priority_order
                   end) Hh DynamicPromptConstructor.initial) as [c Hc].
      rewrite Hc. eexists. reflexivity.
  - intros f Hf.
    assert (forall st, DynamicPromptConstructor.finish self max_tokens st = joined st)
      as Hfinish.
    { intros st. unfold DynamicPromptConstructor.finish. fold (joined st).
      rewrite Hf. destruct (max_tokens <? _); reflexivity. }
    split; [exact Hfinish|].
    intros c Hc. unfold DynamicPromptConstructor.build_and_optimize_prompt.
    rewrite Hc. simpl. rewrite Hfinish. reflexivity.
Qed.

Lemma final_cut_enforces_budget_witness :
  let self := DynamicPromptConstructor.Build None in
  let components : gmap string value :=
    <[ "a" := Text "ab" ]> (<[ "b" := Text "cd" ]> {[ "c" := Text "ef" ]}) in
  let st :=
    {| DynamicPromptConstructor.final_prompt_elements := ["ab"; "cd"; "ef"];
       DynamicPromptConstructor.current_tokens := 0;
       DynamicPromptConstructor.processed_components := components |} in
  1 < DynamicPromptConstructor._estimate_tokens self (joined st)
  /\ DynamicPromptConstructor.build_and_optimize_prompt self components 1
       (Some ["a"; "b"; "c"]) = Returns (Py.slice_to (joined st) (1 * 3))
  /\ DynamicPromptConstructor._estimate_tokens self (Py.slice_to (joined st) (1 * 3)) <= 1
  /\ DynamicPromptConstructor.build_and_optimize_prompt Main.prompt_constructor
       components 3 (Some ["a"; "b"; "c"]) = Returns (joined st).
Proof.
  intros self components st.
  destruct (final_cut_enforces_budget self components 1 (Some ["a"; "b"; "c"]))
    as [Hnone _].
  destruct (Hnone eq_refl ltac:(lia)) as (Hcut & Hle & _).
  assert (1 < DynamicPromptConstructor._estimate_tokens self (joined st)) as Hover
    by (vm_compute; reflexivity).
  assert (DynamicPromptConstructor.build_and_optimize_prompt self components 1
            (Some ["a"; "b"; "c"]) = Returns (Py.slice_to (joined st) (1 * 3))) as Hrun.
  { rewrite <- (Hcut st Hover). vm_compute. reflexivity. }
  split; [exact Hover|]. split; [exact Hrun|]. split; [exact (Hle _ Hrun)|].
  destruct (final_cut_enforces_budget Main.prompt_constructor components 3
              (Some ["a"; "b"; "c"])) as [_ Hsome].
  destruct (Hsome Main.tokenizer_fn eq_refl) as [_ Hbuild].
  exact (Hbuild (DynamicPromptConstructor.Next
                   {| DynamicPromptConstructor.final_prompt_elements := ["ab"; "cd"; "ef"];
                      DynamicPromptConstructor.current_tokens := 3;
                      DynamicPromptConstructor.processed_components := components |})
           ltac:(vm_compute; reflexivity)).
Defined.

(* ===================================================================== *)
(** ** The prompt constructor: priority order *)
(* ===================================================================== *)

Section Priority.

Import DynamicPromptConstructor.

Variable self : t.
Variable components : gmap string value.
Variable max_tokens : Z.

Lemma main_loop_app (pre rest : list string) (st : locals) :
  main_loop self components max_tokens (pre ++ rest) st
  = (c ← main_loop self components max_tokens pre st;
     match c with
     | Next st' => main_loop self components max_tokens rest st'
     | Break st' => Returns (Break st')
     end).
Proof.
  revert st. induction pre as [|key pre IH]; intros st; simpl; [reflexivity|].
  destruct (iteration self components max_tokens key st) as [[st'|st']| |]; simpl;
    auto.
Qed.

Lemma commit_processed (key : string) (cc : value) (formatted : string) (st : locals)
      (k : string) :
  is_Some (processed_components
             (locals_of (commit self max_tokens key cc formatted st)) !! k) ->
  is_Some (processed_components st !! k) \/ k = key.
Proof.
  unfold commit.
  destruct (_ <=? max_tokens); simpl.
  - destruct (decide (key = k)) as [->|Hne]; [right; reflexivity|].
    rewrite lookup_insert_ne by exact Hne. left. assumption.
  - destruct (final_prompt_elements st); [destruct (critical key)|]; simpl; auto.
Qed.

Lemma iteration_processed (key : string) (st : locals) (c : control) (k : string) :
  iteration self components max_tokens key st = Returns c ->
  is_Some (processed_components (locals_of c) !! k) ->
  is_Some (processed_components st !! k) \/ k = key.
Proof.
  unfold iteration.
  destruct (components !! key) as [cc|]; [|intros [= <-]; simpl; auto].
  destruct (negb (truthy cc)); [intros [= <-]; simpl; auto|].
  destruct (temp_prompt_str _ _ _ _ _) as [temp| |]; simpl; try discriminate.
  intros [= <-]. apply commit_processed.
Qed.

Lemma main_loop_processed (priority_order : list string) :
  forall (st : locals) (c : control) (k : string),
    main_loop self components max_tokens priority_order st = Returns c ->
    is_Some (processed_components (locals_of c) !! k) ->
    is_Some (processed_components st !! k) \/ k ∈ priority_order.
Proof.
  induction priority_order as [|key rest IH]; intros st c k; simpl.
  - intros [= <-]. simpl. auto.
  - destruct (iteration self components max_tokens key st) as [c1| |] eqn:Hit;
      simpl; try discriminate.
    destruct c1 as [st1|st1].
    + intros Hrun Hk. destruct (IH st1 c k Hrun Hk) as [H|H].
      * destruct (iteration_processed key st _ k Hit H) as [H'| ->];
          [left; exact H' | right; left].
      * right. right. exact H.
    + intros [= <-] Hk.
      destruct (iteration_processed key st _ k Hit Hk) as [H'| ->];
        [left; exact H' | right; left].
Qed.

(** The iteration for a component that does not fit ends in [break]; the
    locals are left as they were, except that a critical component met
    with nothing committed yet leaves its truncated form behind. *)
Lemma overflow_breaks (key : string) (st : locals) (formatted : string) :
  does_not_fit self components max_tokens key st formatted ->
  exists st',
    iteration self components max_tokens key st = Returns (Break st')
    /\ processed_components st' = processed_components st
    /\ (st' = st
        \/ (final_prompt_elements st = [] /\ critical key = true
            /\ final_prompt_elements st'
               = [Py.slice_to formatted ((max_tokens - current_tokens st) * 3)])).
Proof.
  intros (cc & temp & Hk & Htruthy & Htemp & -> & Hover).
  unfold iteration. rewrite Hk, Htruthy, Htemp. simpl. unfold commit.
  destruct (Z.leb_spec (current_tokens st
              + _estimate_tokens self (formatted_component_str key temp +:+ Py.newline))
              max_tokens); [lia|].
  destruct (final_prompt_elements st) eqn:Hels; [destruct (critical key) eqn:Hcrit|].
  - eexists. split; [reflexivity|]. split; [reflexivity|]. right. simpl. auto.
  - exists st. auto.
  - exists st. auto.
Qed.

End Priority.




(* ===================================================================== *)
(** ** The prompt constructor: determinism *)
(* ===================================================================== *)

Section Determinism.

Variable W : Type.
Variable self : Effects.t W.
Variable f : option tokenizer.
Hypothesis Hdet : deterministic_tokenizer self f.

Variable components : gmap string value.
Variable max_tokens : Z.

(** The constructor without a world that [self] comes down to. *)
Let pure : DynamicPromptConstructor.t := DynamicPromptConstructor.Build f.

Lemma fst_bind_returns {A B : Type} (m : Effects.io W A) (k : A -> Effects.io W B)
      (w : W) (a : A) :
  fst (m w) = Returns a ->
  fst (Effects.bind W m k w) = fst (k a (snd (m w))).
Proof. unfold Effects.bind. destruct (m w) as [[a'| |] w']; simpl; congruence. Qed.

Lemma fst_bind_raises {A B : Type} (m : Effects.io W A) (k : A -> Effects.io W B)
      (w : W) (e : string) :
  fst (m w) = Raises e ->
  fst (Effects.bind W m k w) = Raises e.
Proof. unfold Effects.bind. destruct (m w) as [[a'| |] w']; simpl; congruence. Qed.

Lemma fst_log {B : Type} (level : string) (k : unit -> Effects.io W B) (w : W) :
  fst (Effects.bind W (Effects.log W self level) k w)
  = fst (k tt (Effects.logger W self level w)).
Proof. reflexivity. Qed.

(** In every world the estimate is the one the pure constructor makes. *)
Lemma estimate_sim (text : string) (w : W) :
  fst (Effects._estimate_tokens W self text w)
  = Returns (DynamicPromptConstructor._estimate_tokens pure text).
Proof.
  unfold Effects._estimate_tokens, DynamicPromptConstructor._estimate_tokens,
    deterministic_tokenizer in *. subst pure. simpl.
  destruct (Effects.tokenizer_func W self) as [tok|], f as [g|];
    try contradiction; [|reflexivity].
  specialize (Hdet text w). destruct (tok text w) as [[n|] w']; simpl in *;
    rewrite <- Hdet; reflexivity.
Qed.

Lemma tokenizer_presence :
  (Effects.tokenizer_func W self = None <-> f = None).
Proof.
  unfold deterministic_tokenizer in Hdet.
  destruct (Effects.tokenizer_func W self), f; try contradiction; split; congruence.
Qed.

Lemma history_loop_sim (cur : Z) (turns : list item) :
  forall (buffer : list string) (w : W),
    fst (Effects.history_loop W self max_tokens cur turns buffer w)
    = DynamicPromptConstructor.history_loop pure max_tokens cur turns buffer.
Proof.
  induction turns as [|turn rest IH]; intros buffer w; [reflexivity|].
  cbn [Effects.history_loop DynamicPromptConstructor.history_loop].
  destruct (DynamicPromptConstructor.turn_str turn) as [s| |] eqn:Hturn;
    [|reflexivity|reflexivity].
  rewrite (fst_bind_returns _ _ w s) by reflexivity. cbn [Effects.lift snd].
  rewrite (fst_bind_returns _ _ w _ (estimate_sim s w)).
  rewrite (fst_bind_returns _ _ _ _ (estimate_sim _ _)).
  cbn [mbind outcome_bind].
  destruct (_ <=? max_tokens); [apply IH|].
  rewrite fst_log. reflexivity.
Qed.

Lemma temp_prompt_str_sim (cur : Z) (key : string) (cc : value) (w : W) :
  fst (Effects.temp_prompt_str W self max_tokens cur key cc w)
  = DynamicPromptConstructor.temp_prompt_str pure max_tokens cur key cc.
Proof.
  unfold Effects.temp_prompt_str, DynamicPromptConstructor.temp_prompt_str.
  destruct cc as [s|l]; [reflexivity|].
  destruct (String.eqb key "history"); [|reflexivity].
  pose proof (history_loop_sim cur (rev l) [] w) as Hsim.
  destruct (DynamicPromptConstructor.history_loop pure max_tokens cur (rev l) [])
    as [buffer| |].
  - rewrite (fst_bind_returns _ _ w buffer Hsim). reflexivity.
  - rewrite (fst_bind_raises _ _ w _ Hsim). reflexivity.
  - unfold Effects.bind.
    destruct (Effects.history_loop W self max_tokens cur (rev l) [] w) as [[a| |] w'];
      simpl in *; congruence.
Qed.

Lemma commit_sim (key : string) (cc : value) (formatted : string)
      (st : DynamicPromptConstructor.locals) (w : W) :
  fst (Effects.commit W self max_tokens key cc formatted st w)
  = Returns (DynamicPromptConstructor.commit pure max_tokens key cc formatted st).
Proof.
  unfold Effects.commit, DynamicPromptConstructor.commit.
  rewrite (fst_bind_returns _ _ w _ (estimate_sim _ w)).
  destruct (_ <=? max_tokens); [reflexivity|].
  rewrite fst_log.
  destruct (DynamicPromptConstructor.final_prompt_elements st); [|reflexivity].
  destruct (DynamicPromptConstructor.critical key); [|reflexivity].
  rewrite (fst_bind_returns _ _ _ _ (estimate_sim _ _)).
  rewrite fst_log. reflexivity.
Qed.

Lemma iteration_sim (key : string) (st : DynamicPromptConstructor.locals) (w : W) :
  fst (Effects.iteration W self components max_tokens key st w)
  = DynamicPromptConstructor.iteration pure components max_tokens key st.
Proof.
  unfold Effects.iteration, DynamicPromptConstructor.iteration.
  destruct (components !! key) as [cc|]; [|reflexivity].
  destruct (negb (truthy cc)); [reflexivity|].
  pose proof (temp_prompt_str_sim (DynamicPromptConstructor.current_tokens st) key cc w)
    as Hsim.
  destruct (DynamicPromptConstructor.temp_prompt_str pure max_tokens
              (DynamicPromptConstructor.current_tokens st) key cc) as [temp| |].
  - rewrite (fst_bind_returns _ _ w temp Hsim). apply commit_sim.
  - rewrite (fst_bind_raises _ _ w _ Hsim). reflexivity.
  - unfold Effects.bind.
    destruct (Effects.temp_prompt_str W self max_tokens _ key cc w) as [[a| |] w'];
      simpl in *; congruence.
Qed.

Lemma main_loop_sim (priority_order : list string) :
  forall (st : DynamicPromptConstructor.locals) (w : W),
    fst (Effects.main_loop W self components max_tokens priority_order st w)
    = DynamicPromptConstructor.main_loop pure components max_tokens priority_order st.
Proof.
  induction priority_order as [|key rest IH]; intros st w; [reflexivity|].
  cbn [Effects.main_loop DynamicPromptConstructor.main_loop].
  pose proof (iteration_sim key st w) as Hsim.
  destruct (DynamicPromptConstructor.iteration pure components max_tokens key st)
    as [c| |].
  - rewrite (fst_bind_returns _ _ w c Hsim). cbn [mbind outcome_bind].
    destruct c as [st'|st']; [apply IH | reflexivity].
  - rewrite (fst_bind_raises _ _ w _ Hsim). reflexivity.
  - unfold Effects.bind.
    destruct (Effects.iteration W self components max_tokens key st w) as [[a| |] w'];
      simpl in *; congruence.
Qed.

Lemma finish_sim (st : DynamicPromptConstructor.locals) (w : W) :
  fst (Effects.finish W self max_tokens st w)
  = Returns (DynamicPromptConstructor.finish pure max_tokens st).
Proof.
  unfold Effects.finish, DynamicPromptConstructor.finish.
  rewrite (fst_bind_returns _ _ w _ (estimate_sim _ w)).
  rewrite fst_log.
  destruct (max_tokens <? _); [|reflexivity].
  rewrite fst_log.
  pose proof tokenizer_presence as Hp. subst pure. simpl.
  destruct (Effects.tokenizer_func W self) as [tok|], f as [g|]; try reflexivity.
  - destruct Hp as [_ Hp]. specialize (Hp eq_refl). discriminate.
  - destruct Hp as [Hp _]. specialize (Hp eq_refl). discriminate.
  - destruct (_ <? Py.len _); [rewrite fst_log|]; reflexivity.
Qed.

(** The prompt that a call returns in any world is the one the pure
    constructor computes. *)
Lemma build_sim (priority_order : option (list string)) (w : W) :
  fst (Effects.build_and_optimize_prompt W self components max_tokens priority_order w)
  = DynamicPromptConstructor.build_and_optimize_prompt pure components max_tokens
      priority_order.
Proof.
  unfold Effects.build_and_optimize_prompt,
    DynamicPromptConstructor.build_and_optimize_prompt.
  rewrite fst_log.
  set (prio := match priority_order with
               | Some l => l
               | None => DynamicPromptConstructor.default_priority_order
               end).
  pose proof (main_loop_sim prio DynamicPromptConstructor.initial
                (Effects.logger W self "info" w)) as Hsim.
  destruct (DynamicPromptConstructor.main_loop pure components max_tokens prio
              DynamicPromptConstructor.initial) as [c| |].
  - rewrite (fst_bind_returns _ _ _ c Hsim). apply finish_sim.
  - rewrite (fst_bind_raises _ _ _ _ Hsim). reflexivity.
  - unfold Effects.bind.
    destruct (Effects.main_loop W self components max_tokens prio
                DynamicPromptConstructor.initial (Effects.logger W self "info" w))
      as [[a| |] w']; simpl in *; congruence.
Qed.

End Determinism.



(* ===================================================================== *)
(** ** Further properties of the history store *)
(* ===================================================================== *)

Section Store.

Import ContextManager.

Local Arguments total_cost : simpl never.

Lemma prune_shape (mx cur add : Z) (h : list message) :
  exists k : nat,
    (k <= length h)%nat
    /\ prune_context_if_needed (Build mx h cur) add
       = Returns (Build mx (drop k h) (cur - total_cost (take k h)),
                  negb (Nat.eqb k 0))
    /\ (cur - total_cost (take k h) + add <= mx \/ drop k h = []).
Proof.
  destruct (prune_loop_drops h (length h) mx cur add false (Nat.le_refl _))
    as (k & Hk & Hrun & _ & Hafter).
  exists k. auto.
Qed.

(** What [add_message] can do to the history: drop a prefix, then append the
    new message or not. *)
Lemma add_message_shape (mx cur : Z) (h : list message) (role content : string) :
  let cost := _estimate_tokens content in
  exists k : nat,
    (k <= length h)%nat
    /\ (cur - total_cost (take k h) + cost <= mx \/ drop k h = [])
    /\ (add_message (Build mx h cur) role content
        = Returns (Build mx (drop k h ++ [Message role content cost])
                     (cur - total_cost (take k h) + cost))
        /\ cur - total_cost (take k h) + cost <= mx
        \/ add_message (Build mx h cur) role content
           = Returns (Build mx (drop k h) (cur - total_cost (take k h)))
           /\ mx < cur - total_cost (take k h) + cost).
Proof.
  intros cost.
  destruct (prune_shape mx cur cost h) as (k & Hk & Hrun & Hafter).
  exists k. split; [exact Hk|]. split; [exact Hafter|].
  unfold add_message. fold cost. rewrite Hrun. simpl.
  destruct (Z.leb_spec (cur - total_cost (take k h) + cost) mx); [left | right]; auto.
Qed.

Lemma consistent_drop (mx cur : Z) (h : list message) (k : nat) :
  consistent (Build mx h cur) ->
  consistent (Build mx (drop k h) (cur - total_cost (take k h)))
  /\ 0 <= cur - total_cost (take k h).
Proof.
  intros (Hsum & Hpos & Hle). simpl in *.
  pose proof (total_cost_take_nonneg h k Hpos) as Htake.
  pose proof (total_cost_take_drop h k) as Hsplit.
  assert (0 <= total_cost (drop k h)) as Hdrop.
  { rewrite <- (take_ge (drop k h) (length (drop k h))) by lia.
    apply total_cost_take_nonneg, Forall_drop, Hpos. }
  split; [|lia]. unfold consistent. simpl.
  split; [lia|]. split; [apply Forall_drop; exact Hpos | lia].
Qed.

Lemma store_apply_keeps (s : t) (c : store_call) :
  consistent s -> costs_are_estimates s ->
  exists s', store_apply s c = Returns s'
             /\ consistent s' /\ costs_are_estimates s'
             /\ max_tokens s' = max_tokens s.
Proof.
  intros Hs Hc. destruct s as [mx h cur]. unfold costs_are_estimates in *. simpl in *.
  destruct c as [role content|additional|]; simpl.
  - destruct (add_message_shape mx cur h role content) as (k & Hk & _ & [[Hrun Hfit]|[Hrun _]]);
      rewrite Hrun; eexists; (split; [reflexivity|]).
    + destruct (consistent_drop mx cur h k Hs) as [(Hsum & Hpos & Hle) Hnn]. simpl in *.
      pose proof (_estimate_tokens_nonneg content).
      split; [|split; [|reflexivity]].
      * unfold consistent. simpl.
        rewrite total_cost_app, total_cost_cons, total_cost_nil.
        split; [simpl; lia|]. split; [|exact Hfit].
        apply Forall_app. split; [exact Hpos|]. constructor; [assumption | constructor].
      * simpl. apply Forall_app. split; [apply Forall_drop; exact Hc|].
        constructor; [reflexivity | constructor].
    + split; [apply consistent_drop; exact Hs|].
      split; [simpl; apply Forall_drop; exact Hc | reflexivity].
  - destruct (prune_shape mx cur additional h) as (k & Hk & Hrun & _).
    rewrite Hrun. simpl. eexists. split; [reflexivity|].
    split; [apply consistent_drop; exact Hs|].
    split; [simpl; apply Forall_drop; exact Hc | reflexivity].
  - eexists. split; [reflexivity|]. unfold clear_context. simpl.
    split; [|split; [constructor | reflexivity]].
    unfold consistent. simpl. rewrite total_cost_nil.
    split; [reflexivity|]. split; [constructor|].
    destruct (consistent_drop mx cur h 0 Hs) as [_ Hnn].
    destruct Hs as (_ & _ & Hle). rewrite take_0 in Hnn. unfold total_cost in Hnn.
    simpl in *. lia.
Qed.

End Store.

(** X1: a store in a consistent state never rejects a message whose own
    estimate is within [max_tokens]: [add_message] drops the [k] oldest
    messages for some [k], appends the new message as the last one with its
    estimate as cost, and raises the total by that cost; when the message
    fits beside what is stored, nothing is dropped. *)
Theorem message_within_budget_is_stored
    (s : ContextManager.t) (role content : string) :
  consistent s ->
  ContextManager._estimate_tokens content <= ContextManager.max_tokens s ->
  let h := ContextManager.context_history s in
  let cur := ContextManager.current_total_tokens s in
  let cost := ContextManager._estimate_tokens content in
  exists k : nat,
    (k <= length h)%nat
    /\ ContextManager.add_message s role content
       = Returns (ContextManager.Build (ContextManager.max_tokens s)
                    (drop k h ++ [ContextManager.Message role content cost])
                    (cur - ContextManager.total_cost (take k h) + cost))
    /\ (cur + cost <= ContextManager.max_tokens s -> k = 0%nat).
Proof.
  intros Hs Hcost. destruct s as [mx h cur]. simpl in *.
  set (cost := ContextManager._estimate_tokens content) in *.
  destruct (prune_loop_drops h (length h) mx cur cost false (Nat.le_refl _))
    as (k & Hk & Hrun & Hbefore & Hafter).
  exists k. split; [exact Hk|]. split.
  - unfold ContextManager.add_message, ContextManager.prune_context_if_needed.
    fold cost. simpl. rewrite Hrun. simpl.
    destruct (consistent_drop mx cur h k Hs) as [(Hsum & _ & _) _]. simpl in Hsum.
    destruct (Z.leb_spec (cur - ContextManager.total_cost (take k h) + cost) mx)
      as [_|Hno]; [reflexivity|].
    destruct Hafter as [Hfit|Hnil]; [lia|].
    rewrite Hnil in Hsum. unfold ContextManager.total_cost in Hsum at 2.
    simpl in Hsum. lia.
  - intros Hfits. destruct k as [|k]; [reflexivity|].
    destruct (Hbefore 0%nat ltac:(lia)) as [H _]. rewrite take_0 in H.
    unfold ContextManager.total_cost in H. simpl in H. lia.
Qed.

Lemma message_within_budget_is_stored_witness :
  let m1 := ContextManager.Message "user" "Hello" 2 in
  let m2 := ContextManager.Message "assistant" "World" 2 in
  let m3 := ContextManager.Message "user" "This is a test" 4 in
  exists k : nat,
    ContextManager.add_message (ContextManager.Build 10 [m1; m2; m3] 8)
      "assistant" "Another one"
    = Returns (ContextManager.Build 10
                 (drop k [m1; m2; m3]
                  ++ [ContextManager.Message "assistant" "Another one" 3])
                 (8 - ContextManager.total_cost (take k [m1; m2; m3]) + 3)).
Proof.
  intros m1 m2 m3.
  destruct (message_within_budget_is_stored
              (ContextManager.Build 10 [m1; m2; m3] 8) "assistant" "Another one")
    as (k & _ & Hrun & _).
  - unfold consistent. simpl. repeat split; try lia.
    repeat constructor; simpl; lia.
  - vm_compute. discriminate.
  - exists k. exact Hrun.
Defined.

(** X2: a message whose own estimate exceeds [max_tokens] is not stored, and
    on the way every message that was stored is evicted: the store is left
    empty with count 0. *)
Theorem oversized_message_empties_store
    (s : ContextManager.t) (role content : string) :
  consistent s ->
  ContextManager.max_tokens s < ContextManager._estimate_tokens content ->
  ContextManager.add_message s role content
  = Returns (ContextManager.Build (ContextManager.max_tokens s) [] 0).
Proof.
  intros Hs Hcost. destruct s as [mx h cur]. simpl in *.
  destruct (add_message_shape mx cur h role content)
    as (k & Hk & Hafter & Hcases).
  destruct (consistent_drop mx cur h k Hs) as [(Hsum & _ & _) Hnn]. simpl in *.
  destruct Hafter as [Hfit|Hnil]; [lia|].
  destruct Hcases as [[_ Hfit]|[Hrun _]]; [lia|].
  rewrite Hrun, Hnil. rewrite Hnil in Hsum.
  unfold ContextManager.total_cost in Hsum at 2. simpl in Hsum.
  rewrite Hsum. reflexivity.
Qed.

Lemma oversized_message_empties_store_witness :
  ContextManager.add_message
    (ContextManager.Build 10
       [ContextManager.Message "user" "Hello" 2;
        ContextManager.Message "assistant" "World" 2] 4)
    "user"
    "This single message is far too long for the tiny context limit of ten tokens"
  = Returns (ContextManager.Build 10 [] 0).
Proof.
  apply (oversized_message_empties_store
           (ContextManager.Build 10
              [ContextManager.Message "user" "Hello" 2;
               ContextManager.Message "assistant" "World" 2] 4)).
  - unfold consistent. simpl. repeat split; try lia.
    repeat constructor; simpl; lia.
  - vm_compute. reflexivity.
Defined.

(** X3: for [max_tokens >= 0], every sequence of calls of [add_message],
    [prune_context_if_needed] (with any argument) and [clear_context] on a
    fresh store returns without raising and leaves the count equal to the
    sum of the stored costs and within [max_tokens], each stored cost being
    the estimate of its message's content. *)
Theorem store_invariant_all_calls (max_tokens : Z) (calls : list store_call) :
  0 <= max_tokens ->
  exists s',
    store_run (ContextManager.init max_tokens) calls = Returns s'
    /\ ContextManager.get_current_token_count s'
       = ContextManager.total_cost (ContextManager.context_history s')
    /\ ContextManager.get_current_token_count s' <= max_tokens
    /\ costs_are_estimates s'
    /\ ContextManager.max_tokens s' = max_tokens.
Proof.
  intros Hmx.
  assert (forall calls s,
            consistent s -> costs_are_estimates s ->
            exists s', store_run s calls = Returns s'
                       /\ consistent s' /\ costs_are_estimates s'
                       /\ ContextManager.max_tokens s' = ContextManager.max_tokens s)
    as Hgen.
  { clear. induction calls as [|c rest IH]; intros s Hs Hc.
    - exists s. auto.
    - destruct (store_apply_keeps s c Hs Hc) as (s1 & Hrun1 & Hs1 & Hc1 & Hmx1).
      destruct (IH s1 Hs1 Hc1) as (s2 & Hrun2 & Hs2 & Hc2 & Hmx2).
      exists s2. simpl. rewrite Hrun1. simpl. rewrite Hrun2.
      split; [reflexivity|]. split; [exact Hs2|]. split; [exact Hc2 | congruence]. }
  destruct (Hgen calls (ContextManager.init max_tokens) (init_consistent _ Hmx))
    as (s' & Hrun & (Hsum & _ & Hle) & Hc & Hsame).
  { constructor. }
  exists s'. simpl in Hsame. unfold ContextManager.get_current_token_count.
  split; [exact Hrun|]. split; [exact Hsum|]. split; [lia|]. split; assumption.
Qed.

Lemma store_invariant_all_calls_witness :
  exists s',
    store_run (ContextManager.init 10)
      [CallAddMessage "user" "Hello"; CallPrune 7; CallAddMessage "assistant" "World";
       CallClear; CallAddMessage "user" "This is a test"] = Returns s'
    /\ ContextManager.get_current_token_count s' <= 10.
Proof.
  destruct (store_invariant_all_calls 10
              [CallAddMessage "user" "Hello"; CallPrune 7;
               CallAddMessage "assistant" "World"; CallClear;
               CallAddMessage "user" "This is a test"] ltac:(lia))
    as (s' & Hrun & _ & Hle & _).
  exists s'. split; [exact Hrun | exact Hle].
Defined.

Lemma context_of_drop_sublist (h : list ContextManager.message) (k : nat) :
  map (fun msg => (ContextManager.role msg, ContextManager.content msg)) (drop k h)
  `sublist_of`
  map (fun msg => (ContextManager.role msg, ContextManager.content msg)) h.
Proof.
  rewrite <- (take_drop k h) at 2. rewrite map_app. apply sublist_inserts_l.
  reflexivity.
Qed.

Lemma add_messages_sublist (calls : list (string * string)) :
  forall s : ContextManager.t,
    exists s',
      ContextManager.add_messages s calls = Returns s'
      /\ ContextManager.get_context s' `sublist_of` ContextManager.get_context s ++ calls.
Proof.
  induction calls as [|[role content] rest IH]; intros [mx h cur].
  - eexists. split; [reflexivity|]. rewrite app_nil_r. reflexivity.
  - destruct (add_message_shape mx cur h role content)
      as (k & _ & _ & [[Hrun _]|[Hrun _]]).
    + destruct (IH (ContextManager.Build mx
                      (drop k h ++ [ContextManager.Message role content
                                      (ContextManager._estimate_tokens content)])
                      (cur - ContextManager.total_cost (take k h)
                       + ContextManager._estimate_tokens content)))
        as (s2 & Hrun2 & Hsub).
      exists s2. split; [simpl; rewrite Hrun; exact Hrun2|].
      etrans; [exact Hsub|]. unfold ContextManager.get_context. simpl.
      rewrite map_app. simpl. rewrite <- app_assoc. simpl.
      apply sublist_app; [|reflexivity]. apply context_of_drop_sublist.
    + destruct (IH (ContextManager.Build mx (drop k h)
                      (cur - ContextManager.total_cost (take k h))))
        as (s2 & Hrun2 & Hsub).
      exists s2. split; [simpl; rewrite Hrun; exact Hrun2|].
      etrans; [exact Hsub|]. unfold ContextManager.get_context. simpl.
      apply sublist_app; [apply context_of_drop_sublist|].
      apply sublist_cons. reflexivity.
Qed.

(** X4: the context never holds anything but messages that were added, in
    the order they were added: after any sequence of [add_message] calls on
    a fresh store, [get_context()] is a subsequence of the (role, content)
    pairs of the calls. *)
Theorem context_is_subsequence_of_calls
    (max_tokens : Z) (calls : list (string * string)) :
  exists s',
    ContextManager.add_messages (ContextManager.init max_tokens) calls = Returns s'
    /\ ContextManager.get_context s' `sublist_of` calls.
Proof.
  destruct (add_messages_sublist calls (ContextManager.init max_tokens))
    as (s' & Hrun & Hsub).
  exists s'. split; [exact Hrun | exact Hsub].
Qed.

(* ===================================================================== *)
(** ** The rounding estimator and the chunker *)
(* ===================================================================== *)

Lemma len_append (a b : string) : Py.len (a +:+ b) = Py.len a + Py.len b.
Proof.
  unfold Py.len. induction a as [|c a IH]; [reflexivity|].
  change (String c a +:+ b) with (String c (a +:+ b)).
  cbn [String.length]. lia.
Qed.

Lemma estimate_is_rounded (s : string) :
  TokenOptimizer.estimate_token_count s = (Py.len s + 3) / 4.
Proof.
  unfold TokenOptimizer.estimate_token_count. destruct s; reflexivity.
Qed.

Lemma quarter_bounds (n : Z) : 4 * ((n + 3) / 4) <= n + 3 < 4 * ((n + 3) / 4) + 4.
Proof.
  pose proof (Z.div_mod (n + 3) 4 ltac:(lia)).
  pose proof (Z.mod_pos_bound (n + 3) 4 ltac:(lia)). lia.
Qed.

(** X5: the estimate of a concatenation is at most the sum of the estimates
    of its parts, and the sum overshoots it by at most one token. *)
Theorem estimate_nearly_additive (a b : string) :
  TokenOptimizer.estimate_token_count (a +:+ b)
  <= TokenOptimizer.estimate_token_count a + TokenOptimizer.estimate_token_count b
  <= TokenOptimizer.estimate_token_count (a +:+ b) + 1.
Proof.
  rewrite !estimate_is_rounded, len_append.
  pose proof (quarter_bounds (Py.len a)). pose proof (quarter_bounds (Py.len b)).
  pose proof (quarter_bounds (Py.len a + Py.len b)).
  pose proof (len_nonneg a). pose proof (len_nonneg b). lia.
Qed.

Section Chunks.

Import Chunking.

Variable max_tokens_per_chunk : Z.

Lemma len_join_snoc (ws : list string) (w : string) :
  ws <> [] ->
  Py.len (Py.join " " (ws ++ [w])) = Py.len (Py.join " " ws) + 1 + Py.len w.
Proof.
  induction ws as [|w1 ws IH]; [congruence|]. intros _.
  destruct ws as [|w2 ws].
  - simpl. rewrite !len_append. change (Py.len " ") with 1. lia.
  - change (Py.join " " ((w1 :: w2 :: ws) ++ [w]))
      with (w1 +:+ " " +:+ Py.join " " ((w2 :: ws) ++ [w])).
    change (Py.join " " (w1 :: w2 :: ws)) with (w1 +:+ " " +:+ Py.join " " (w2 :: ws)).
    rewrite !len_append, IH by discriminate. lia.
Qed.

Lemma step_keeps (st : locals) (seen : list string) (word : string) :
  chunk_invariant max_tokens_per_chunk st seen ->
  chunk_invariant max_tokens_per_chunk (step max_tokens_per_chunk st word) (seen ++ [word])
  /\ current_chunk_words (step max_tokens_per_chunk st word) <> [].
Proof.
  intros (groups & Hchunks & Hseen & Hne & Hb & Hcur & Hheld).
  unfold step.
  destruct (current_chunk_words st) as [|w1 rest] eqn:Hcw.
  - rewrite andb_false_r. simpl. split; [|discriminate].
    exists groups. simpl. rewrite app_nil_r in Hseen. subst seen.
    repeat split; auto. intros H. simpl in H. lia.
  - rewrite andb_true_r.
    destruct (Z.ltb_spec max_tokens_per_chunk
                (current_estimated_tokens st + TokenOptimizer.estimate_token_count (word +:+ " "))) as [Hover|Hfits].
    + split; [|discriminate].
      exists (groups ++ [w1 :: rest]). simpl.
      rewrite map_app, concat_app, Hchunks. simpl. rewrite app_nil_r.
      rewrite <- Hseen, <- app_assoc.
      repeat split; auto.
      * apply Forall_app. split; [exact Hne|]. constructor; [discriminate | constructor].
      * apply Forall_app. split; [exact Hb|]. constructor; [exact Hcur | constructor].
      * intros H. simpl in H. lia.
    + split; [|destruct rest; discriminate].
      exists groups. cbn [chunks current_chunk_words current_estimated_tokens].
      rewrite <- Hseen, <- app_assoc.
      split; [exact Hchunks|]. split; [reflexivity|]. split; [exact Hne|].
      split; [exact Hb|].
      assert (TokenOptimizer.estimate_token_count (Py.join " " ((w1 :: rest) ++ [word])) <= max_tokens_per_chunk)
        as Hbound.
      { rewrite estimate_is_rounded, len_join_snoc by discriminate.
        rewrite estimate_is_rounded, len_append in Hfits.
        change (Py.len " ") with 1 in Hfits.
        pose proof (quarter_bounds (Py.len (Py.join " " (w1 :: rest)) + 1 + Py.len word)).
        pose proof (quarter_bounds (Py.len word + 1)).
        pose proof (len_nonneg word).
        destruct rest as [|w2 rest]; cbv beta iota delta [held] in Hheld;
          rewrite Hheld in Hfits;
          rewrite estimate_is_rounded in Hfits.
        - simpl. simpl in H. pose proof (quarter_bounds (Py.len w1)).
          pose proof (len_nonneg w1). lia.
        - rewrite len_append in Hfits. change (Py.len " ") with 1 in Hfits.
          pose proof (quarter_bounds (Py.len (Py.join " " (w1 :: w2 :: rest)) + 1)).
          lia. }
      split; [intros _; exact Hbound|].
      destruct rest as [|w2 rest]; simpl; reflexivity.
Qed.

Lemma fold_keeps (words : list string) :
  forall (st : locals) (seen : list string),
    chunk_invariant max_tokens_per_chunk st seen ->
    chunk_invariant max_tokens_per_chunk (fold_left (step max_tokens_per_chunk) words st) (seen ++ words)
    /\ (words <> [] ->
        current_chunk_words (fold_left (step max_tokens_per_chunk) words st) <> []).
Proof.
  induction words as [|word rest IH]; intros st seen Hinv.
  - simpl. rewrite app_nil_r. split; [exact Hinv | congruence].
  - destruct (step_keeps st seen word Hinv) as [Hinv' Hne].
    destruct (IH _ _ Hinv') as [Hinv'' Hne'].
    simpl. rewrite <- app_assoc in Hinv''. simpl in Hinv''.
    split; [exact Hinv''|]. intros _.
    destruct rest as [|w rest']; [exact Hne | apply Hne'; discriminate].
Qed.

Lemma lstrip_head (s : string) (c : ascii) (r : string) :
  Py.lstrip s = String c r -> Py.isspace c = false.
Proof.
  induction s as [|c' s IH]; simpl; [discriminate|].
  destruct (Py.isspace c') eqn:E; [exact IH|]. intros [= -> _]. exact E.
Qed.

Lemma split_nil_iff_lstrip (s : string) :
  PyWords.split s = [] <-> Py.lstrip s = EmptyString.
Proof.
  induction s as [|c s IH]; simpl; [tauto|].
  destruct (Py.isspace c); [exact IH|].
  split; [|discriminate].
  destruct (PyWords.split s); [discriminate|].
  destruct s as [|c' s']; [discriminate|]. destruct (Py.isspace c'); discriminate.
Qed.

Lemma strip_blank_iff_lstrip (s : string) :
  Py.truthy_str (Py.strip s) = false <-> Py.lstrip s = EmptyString.
Proof.
  unfold Py.strip. split.
  - destruct (Py.lstrip s) as [|c r] eqn:E; [reflexivity|].
    pose proof (lstrip_head s c r E) as Hc. simpl.
    destruct (Py.rstrip r); [rewrite Hc|]; discriminate.
  - intros ->. reflexivity.
Qed.

(** The chunks are groups of consecutive words of the text, joined by single
    spaces; a group of two or more words estimates within the limit. *)
Lemma chunks_are_groups (text : string) :
  exists groups : list (list string),
    chunk_text_by_tokens text max_tokens_per_chunk = map (Py.join " ") groups
    /\ concat groups = PyWords.split text
    /\ Forall (fun g => g <> []) groups
    /\ Forall (chunk_bounded max_tokens_per_chunk) groups.
Proof.
  unfold chunk_text_by_tokens.
  destruct (Py.truthy_str (Py.strip text)) eqn:Hblank; simpl.
  - assert (PyWords.split text <> []) as Hwords.
    { intros H. apply split_nil_iff_lstrip, strip_blank_iff_lstrip in H. congruence. }
    destruct (fold_keeps (PyWords.split text) initial [])
      as [(groups & Hchunks & Hseen & Hne & Hb & Hcur & _) Hlast].
    { exists []. simpl. repeat split; auto. intros H. simpl in H. lia. }
    specialize (Hlast Hwords). simpl in Hseen.
    unfold flush.
    destruct (current_chunk_words (fold_left _ _ _)) as [|w ws] eqn:Hcw; [congruence|].
    rewrite Hchunks.
    exists (groups ++ [w :: ws]).
    rewrite map_app, concat_app. simpl. rewrite app_nil_r.
    split.
    + destruct groups; reflexivity.
    + split; [exact Hseen|]. split; apply Forall_app; (split; [assumption|]).
      * constructor; [discriminate | constructor].
      * constructor; [exact Hcur | constructor].
  - exists []. simpl. split; [reflexivity|]. split; [|split; constructor].
    symmetry. apply split_nil_iff_lstrip, strip_blank_iff_lstrip. exact Hblank.
Qed.

End Chunks.

(** X6: [chunk_text_by_tokens] loses, repeats and reorders no word: the
    chunks are non-empty groups of consecutive words of [text.split()],
    each joined by single spaces, and the groups put end to end are exactly
    the words of the text.  A blank text gives no chunk. *)
Theorem chunks_partition_the_words (text : string) (max_tokens_per_chunk : Z) :
  exists groups : list (list string),
    Chunking.chunk_text_by_tokens text max_tokens_per_chunk
    = map (Py.join " ") groups
    /\ concat groups = PyWords.split text
    /\ Forall (fun g => g <> []) groups.
Proof.
  destruct (chunks_are_groups max_tokens_per_chunk text)
    as (groups & Hout & Hwords & Hne & _).
  exists groups. auto.
Qed.

(** X7: a chunk can exceed [max_tokens_per_chunk] only when it is a single
    word of the text: every chunk made of two or more words estimates at or
    below the limit. *)
Theorem chunk_over_limit_is_single_word
    (text : string) (max_tokens_per_chunk : Z) (chunk : string) :
  chunk ∈ Chunking.chunk_text_by_tokens text max_tokens_per_chunk ->
  TokenOptimizer.estimate_token_count chunk <= max_tokens_per_chunk
  \/ chunk ∈ PyWords.split text.
Proof.
  destruct (chunks_are_groups max_tokens_per_chunk text)
    as (groups & Hout & Hwords & Hne & Hb).
  rewrite Hout. intros Hin.
  apply list_elem_of_fmap in Hin as (g & Hchunk & Hg). subst chunk.
  rewrite Forall_forall in Hb, Hne.
  pose proof (Hb g Hg) as Hbg. pose proof (Hne g Hg) as Hneg.
  destruct g as [|w [|w' g']].
  - congruence.
  - right. rewrite <- Hwords. apply list_elem_of_In, in_concat.
    exists [w]. split; [apply list_elem_of_In; exact Hg | left; reflexivity].
  - left. apply Hbg. simpl. lia.
Qed.

Lemma chunk_over_limit_is_single_word_witness :
  TokenOptimizer.estimate_token_count "abcd abc" <= 2
  \/ "abcd abc" ∈ PyWords.split "abcd abc x".
Proof.
  apply (chunk_over_limit_is_single_word "abcd abc x" 2 "abcd abc").
  vm_compute. constructor.
Defined.

(* ===================================================================== *)
(** ** The input optimizer *)
(* ===================================================================== *)

Lemma slice_to_is_prefix (s : string) (n : Z) : is_prefix (Py.slice_to s n) s.
Proof. unfold Py.slice_to. destruct (0 <=? n); eexists; reflexivity. Qed.

Lemma prefix_prefix (m n : nat) (s : string) :
  Py.prefix m (Py.prefix n s) = Py.prefix (Nat.min m n) s.
Proof.
  revert n s. induction m as [|m IH]; intros [|n] [|c s]; simpl; try reflexivity.
  f_equal. apply IH.
Qed.

Lemma is_prefix_trans (a b c : string) : is_prefix a b -> is_prefix b c -> is_prefix a c.
Proof.
  intros [m ->] [n ->]. exists (Nat.min m n). apply prefix_prefix.
Qed.

Lemma is_prefix_refl (s : string) : is_prefix s s.
Proof. exists (String.length s). symmetry. apply prefix_all. lia. Qed.

(** X8: with the strategy [truncate] and [max_tokens >= 0],
    [preprocess_text] returns a beginning of the text of at most
    [4 * max_tokens] characters, so one that passes its own length test:
    preprocessing the result again returns it unchanged. *)
Theorem preprocess_truncate_fits (text : string) (max_tokens : Z) :
  0 <= max_tokens ->
  let out := LLMInputOptimizer.preprocess_text text max_tokens "truncate" in
  Py.len out <= 4 * max_tokens
  /\ is_prefix out text
  /\ LLMInputOptimizer.preprocess_text out max_tokens "truncate" = out.
Proof.
  intros Hmax out.
  assert (Py.len out <= 4 * max_tokens /\ is_prefix out text) as [Hlen Hpre].
  { subst out. unfold LLMInputOptimizer.preprocess_text.
    destruct (Z.ltb_spec (4 * max_tokens) (Py.len text)) as [Hlong|Hshort].
    - simpl. split; [|apply slice_to_is_prefix].
      assert (0 <= LLMInputOptimizer.cutoff_chars max_tokens <= 4 * max_tokens) as Hcut.
      { unfold LLMInputOptimizer.cutoff_chars. rewrite Z.quot_div_nonneg by lia.
        pose proof (Z.div_mod (7 * max_tokens) 2 ltac:(lia)).
        pose proof (Z.mod_pos_bound (7 * max_tokens) 2 ltac:(lia)). lia. }
      pose proof (len_slice_to_bound text (LLMInputOptimizer.cutoff_chars max_tokens)
                    ltac:(lia)). lia.
    - split; [exact Hshort | apply is_prefix_refl]. }
  split; [exact Hlen|]. split; [exact Hpre|].
  unfold LLMInputOptimizer.preprocess_text at 1.
  destruct (Z.ltb_spec (4 * max_tokens) (Py.len out)); [lia | reflexivity].
Qed.

Lemma preprocess_truncate_fits_witness :
  let out := LLMInputOptimizer.preprocess_text "This is a very long string. " 2 "truncate" in
  Py.len out <= 8
  /\ is_prefix out "This is a very long string. "
  /\ LLMInputOptimizer.preprocess_text out 2 "truncate" = out.
Proof.
  exact (preprocess_truncate_fits "This is a very long string. " 2 ltac:(lia)).
Defined.

(* ===================================================================== *)
(** ** Further properties of the condenser *)
(* ===================================================================== *)

Section CondenserMore.

Import ContextualMemoryCondenserAI.

Lemma under_target_unchanged (self : t) (info : string) (data : value) (target : Z)
      (query : option string) (strategy : string) :
  _estimate_tokens self (raw_text_representation data) <= target ->
  condense_information self info data target query strategy
  = raw_text_representation data.
Proof.
  intros Hfit. unfold condense_information.
  destruct (truthy data) eqn:Hd; simpl.
  - destruct (Z.leb_spec (_estimate_tokens self (raw_text_representation data)) target);
      [reflexivity | lia].
  - symmetry. apply raw_of_falsy. exact Hd.
Qed.

(** With no tokenizer, or with the one [main.py] injects, the estimate of
    what is returned is within a target that is not negative. *)
Lemma condensed_estimate_le (self : t) (info : string) (data : value) (target : Z)
      (query : option string) (strategy : string) :
  tokenizer_func self = None \/ tokenizer_func self = Some Main.tokenizer_fn ->
  0 <= target ->
  _estimate_tokens self (condense_information self info data target query strategy)
  <= target.
Proof.
  intros Htok Ht.
  destruct (Z.le_gt_cases (_estimate_tokens self (raw_text_representation data)) target)
    as [Hfit|Hover].
  - rewrite under_target_unchanged by exact Hfit. exact Hfit.
  - pose proof (condensed_length self info data target query strategy Ht
                  ltac:(lia)) as Hlen.
    set (out := condense_information self info data target query strategy) in *.
    unfold chars_3_5 in Hlen. rewrite Z.quot_div_nonneg in Hlen by lia.
    pose proof (Z.div_mod (7 * target) 2 ltac:(lia)).
    pose proof (Z.mod_pos_bound (7 * target) 2 ltac:(lia)).
    pose proof (len_nonneg out).
    unfold _estimate_tokens. destruct Htok as [-> | ->].
    + pose proof (Z.div_mod (Py.len out) 4 ltac:(lia)).
      pose proof (Z.mod_pos_bound (Py.len out) 4 ltac:(lia)). lia.
    + unfold Main.tokenizer_fn. rewrite estimate_is_rounded.
      pose proof (quarter_bounds (Py.len out)). lia.
Qed.

End CondenserMore.

(** X9: [condense_information] only cuts and trims: whatever the data, the
    target, the query, the strategy and the tokenizer, it returns the flat
    text itself or a beginning of the flat text stripped of surrounding
    whitespace. *)
Theorem condense_only_truncates
    (self : ContextualMemoryCondenserAI.t) (information_type : string)
    (data : value) (target_token_count : Z)
    (relevance_query : option string) (strategy : string) :
  let raw := ContextualMemoryCondenserAI.raw_text_representation data in
  let out :=
    ContextualMemoryCondenserAI.condense_information self information_type data
      target_token_count relevance_query strategy in
  out = raw \/ exists cut : string, is_prefix cut raw /\ out = Py.strip cut.
Proof.
  intros raw out. subst out. unfold ContextualMemoryCondenserAI.condense_information.
  fold raw.
  destruct (truthy data) eqn:Hd; simpl.
  - destruct (_ <=? target_token_count); [left; reflexivity|].
    right. eexists. split; [|reflexivity].
    match goal with
    | |- is_prefix (if ?c then Py.slice_to ?x ?n else ?x) raw =>
        assert (is_prefix x raw) as Hx;
        [|destruct c; [eapply is_prefix_trans; [apply slice_to_is_prefix | exact Hx]
                      | exact Hx]]
    end.
    destruct (String.eqb _ _); [destruct (_ && _)|]; apply slice_to_is_prefix.
  - left. symmetry. apply raw_of_falsy. exact Hd.
Qed.

(** X10: as [main.py] wires it, with [TokenOptimizer.estimate_token_count]
    for tokenizer, [condense_information] keeps its promise for every
    target that is not negative: the text returned estimates at or below
    [target_token_count], for any data, query and strategy. *)
Theorem condenser_as_wired_meets_target
    (information_type : string) (data : value) (target_token_count : Z)
    (relevance_query : option string) (strategy : string) :
  0 <= target_token_count ->
  ContextualMemoryCondenserAI._estimate_tokens Main.context_condenser
    (ContextualMemoryCondenserAI.condense_information Main.context_condenser
       information_type data target_token_count relevance_query strategy)
  <= target_token_count.
Proof.
  intros Ht. apply condensed_estimate_le; [right; reflexivity | exact Ht].
Qed.

Lemma condenser_as_wired_meets_target_witness :
  ContextualMemoryCondenserAI._estimate_tokens Main.context_condenser
    (ContextualMemoryCondenserAI.condense_information Main.context_condenser
       "document_text"
       (Text "This is a very long document about artificial intelligence. ")
       5 (Some "intelligence") ContextualMemoryCondenserAI.default_strategy)
  <= 5.
Proof.
  apply condenser_as_wired_meets_target. lia.
Defined.

(** X11: with no tokenizer, or with the one [main.py] injects, and a target
    that is not negative, condensing is idempotent: condensing the returned
    text again, under any query and strategy, returns it unchanged. *)
Theorem condense_is_idempotent
    (self : ContextualMemoryCondenserAI.t) (information_type : string)
    (data : value) (target_token_count : Z)
    (relevance_query : option string) (strategy : string)
    (information_type' : string) (relevance_query' : option string)
    (strategy' : string) :
  ContextualMemoryCondenserAI.tokenizer_func self = None
  \/ ContextualMemoryCondenserAI.tokenizer_func self = Some Main.tokenizer_fn ->
  0 <= target_token_count ->
  let out :=
    ContextualMemoryCondenserAI.condense_information self information_type data
      target_token_count relevance_query strategy in
  ContextualMemoryCondenserAI.condense_information self information_type'
    (Text out) target_token_count relevance_query' strategy' = out.
Proof.
  intros Htok Ht out.
  rewrite under_target_unchanged; [reflexivity|].
  simpl. apply condensed_estimate_le; assumption.
Qed.

Lemma condense_is_idempotent_witness :
  let self := ContextualMemoryCondenserAI.Build false None in
  let out :=
    ContextualMemoryCondenserAI.condense_information self "document_text"
      (Text "This is a very long document about artificial intelligence. ") 5 None
      ContextualMemoryCondenserAI.default_strategy in
  ContextualMemoryCondenserAI.condense_information self "document_text"
    (Text out) 5 None ContextualMemoryCondenserAI.default_strategy = out.
Proof.
  intros self.
  exact (condense_is_idempotent self "document_text"
           (Text "This is a very long document about artificial intelligence. ") 5 None
           ContextualMemoryCondenserAI.default_strategy "document_text" None
           ContextualMemoryCondenserAI.default_strategy
           (or_introl eq_refl) ltac:(lia)).
Defined.

(* ===================================================================== *)
(** ** Further properties of the prompt constructor *)
(* ===================================================================== *)

Section Packing.

Import DynamicPromptConstructor.

Variable self : t.
Variable max_tokens : Z.

(** The loop over the reversed history takes turns from the front of its
    list for as long as they fit, and puts each in front of the buffer. *)
Lemma history_loop_takes (cur : Z) (turns : list py_dict) :
  forall buffer : list string,
    exists taken rest : list py_dict,
      turns = taken ++ rest
      /\ history_loop self max_tokens cur (map Dict turns) buffer
         = Returns (rev (map turn_text taken) ++ buffer)
      /\ match rest with
         | [] => True
         | t :: _ =>
             max_tokens
             < cur + _estimate_tokens self
                       (Py.join Py.newline (rev (map turn_text taken) ++ buffer)
                        +:+ turn_text t)
         end.
Proof.
  induction turns as [|d ts IH]; intros buffer.
  - exists [], []. simpl. auto.
  - cbn [map history_loop turn_str]. fold (turn_text d).
    cbn [mbind outcome_bind].
    destruct (Z.leb_spec
                (cur + _estimate_tokens self
                         (Py.join Py.newline buffer +:+ turn_text d)) max_tokens)
      as [Hfit|Hover].
    + destruct (IH (turn_text d :: buffer)) as (taken & rest & -> & Hrun & Hstop).
      exists (d :: taken), rest. split; [reflexivity|].
      cbn [map rev]. rewrite <- app_assoc. simpl. split; [exact Hrun | exact Hstop].
    + exists [], (d :: ts). simpl. auto.
Qed.

Lemma iteration_agree (c1 c2 : gmap string value) (key : string) (st : locals) :
  c1 !! key = c2 !! key ->
  iteration self c1 max_tokens key st = iteration self c2 max_tokens key st.
Proof. intros H. unfold iteration. rewrite H. reflexivity. Qed.

Lemma main_loop_agree (c1 c2 : gmap string value) (priority_order : list string) :
  (forall key, key ∈ priority_order -> c1 !! key = c2 !! key) ->
  forall st,
    main_loop self c1 max_tokens priority_order st
    = main_loop self c2 max_tokens priority_order st.
Proof.
  induction priority_order as [|key rest IH]; intros H st; simpl; [reflexivity|].
  rewrite (iteration_agree c1 c2 key st) by (apply H; left).
  destruct (iteration self c2 max_tokens key st) as [[st'|st']| |]; simpl;
    try reflexivity.
  apply IH. intros k Hk. apply H. right. exact Hk.
Qed.

Lemma iteration_absent (components : gmap string value) (key : string) (st : locals) :
  present components key = false ->
  iteration self components max_tokens key st = Returns (Next st).
Proof.
  unfold present, iteration. destruct (components !! key) as [v|]; [|reflexivity].
  intros ->. reflexivity.
Qed.

Lemma main_loop_skips_absent (components : gmap string value)
      (priority_order : list string) :
  forall st,
    main_loop self components max_tokens priority_order st
    = main_loop self components max_tokens
        (List.filter (present components) priority_order) st.
Proof.
  induction priority_order as [|key rest IH]; intros st; simpl; [reflexivity|].
  destruct (present components key) eqn:Hp; simpl.
  - destruct (iteration self components max_tokens key st) as [[st'|st']| |];
      simpl; auto.
  - rewrite iteration_absent by exact Hp. simpl. apply IH.
Qed.

Lemma slice_to_empty (n : Z) : Py.slice_to EmptyString n = EmptyString.
Proof.
  unfold Py.slice_to. destruct (0 <=? n); destruct (Z.to_nat _); reflexivity.
Qed.

Lemma finish_of_nothing : finish self max_tokens initial = EmptyString.
Proof.
  unfold finish.
  change (Py.strip (Py.join (Py.newline +:+ Py.newline) (final_prompt_elements initial)))
    with EmptyString.
  destruct (max_tokens <? _); [|reflexivity].
  destruct (tokenizer_func self); [reflexivity|].
  destruct (max_tokens * 3 <? Py.len EmptyString); [apply slice_to_empty | reflexivity].
Qed.

End Packing.

(** X12: of a history of turns, the prompt constructor keeps the most recent
    ones, in their original order: the block built for the key [history] is
    made of the lines of a final segment [recent] of the list, and that
    segment cannot be extended, the turn just before it did not pass the
    test of the loop. *)
Theorem history_keeps_latest_turns
    (self : DynamicPromptConstructor.t) (max_tokens current_tokens : Z)
    (turns : list py_dict) :
  exists older recent : list py_dict,
    turns = older ++ recent
    /\ DynamicPromptConstructor.temp_prompt_str self max_tokens current_tokens
         "history" (Items (map Dict turns))
       = Returns (Py.join Py.newline (map turn_text recent))
    /\ (forall (older' : list py_dict) (t : py_dict),
          older = older' ++ [t] ->
          max_tokens
          < current_tokens
            + DynamicPromptConstructor._estimate_tokens self
                (Py.join Py.newline (map turn_text recent) +:+ turn_text t)).
Proof.
  destruct (history_loop_takes self max_tokens current_tokens (rev turns) [])
    as (taken & rest & Hsplit & Hrun & Hstop).
  exists (rev rest), (rev taken).
  split.
  { rewrite <- rev_app_distr, <- Hsplit, rev_involutive. reflexivity. }
  rewrite app_nil_r in Hrun, Hstop. rewrite <- map_rev in Hrun, Hstop.
  split.
  - unfold DynamicPromptConstructor.temp_prompt_str. simpl.
    rewrite <- map_rev, Hrun. simpl.
    destruct (map turn_text (rev taken)); reflexivity.
  - intros older' t Hold.
    assert (rest = t :: rev older') as ->.
    { rewrite <- (rev_involutive rest), Hold, rev_app_distr. reflexivity. }
    exact Hstop.
Qed.

Lemma history_keeps_latest_turns_witness :
  exists recent : list py_dict,
    DynamicPromptConstructor.temp_prompt_str (DynamicPromptConstructor.Build None) 12 0
      "history"
      (Items (map Dict [[("role", "user"); ("content", "Tell me about the Roman Empire.")];
                        [("role", "assistant"); ("content", "It was vast.")]]))
    = Returns (Py.join Py.newline (map turn_text recent))
    /\ 12 < 0 + DynamicPromptConstructor._estimate_tokens
                  (DynamicPromptConstructor.Build None)
                  (Py.join Py.newline (map turn_text recent)
                   +:+ turn_text [("role", "user");
                                  ("content", "Tell me about the Roman Empire.")]).
Proof.
  destruct (history_keeps_latest_turns (DynamicPromptConstructor.Build None) 12 0
              [[("role", "user"); ("content", "Tell me about the Roman Empire.")];
               [("role", "assistant"); ("content", "It was vast.")]])
    as (older & recent & Hsplit & Hrun & Hstop).
  exists recent. split; [exact Hrun|].
  destruct older as [|o1 [|o2 older]].
  - exfalso. simpl in Hsplit. subst recent. vm_compute in Hrun. discriminate.
  - destruct recent as [|r1 [|r2 recent]]; try discriminate.
    injection Hsplit as <- _. exact (Hstop [] _ eq_refl).
  - exfalso. destruct recent; [|destruct older; discriminate].
    vm_compute in Hrun. discriminate.
Defined.

(** X13: a component whose key is not in [priority_order] never reaches the
    prompt: two component maps that agree on the keys of the priority order
    give the same result, whatever else they hold. *)
Theorem keys_outside_priority_are_ignored
    (self : DynamicPromptConstructor.t) (components1 components2 : gmap string value)
    (max_tokens : Z) (priority_order : list string) :
  (forall key : string,
     key ∈ priority_order -> components1 !! key = components2 !! key) ->
  DynamicPromptConstructor.build_and_optimize_prompt self components1 max_tokens
    (Some priority_order)
  = DynamicPromptConstructor.build_and_optimize_prompt self components2 max_tokens
      (Some priority_order).
Proof.
  intros H. unfold DynamicPromptConstructor.build_and_optimize_prompt.
  rewrite (main_loop_agree self max_tokens components1 components2 priority_order H).
  reflexivity.
Qed.

Lemma keys_outside_priority_are_ignored_witness :
  DynamicPromptConstructor.build_and_optimize_prompt (DynamicPromptConstructor.Build None)
    (<[ "notes" := Text "never shown" ]> {[ "user_query" := Text "hi" ]}) 10
    (Some ["user_query"; "system_message"])
  = DynamicPromptConstructor.build_and_optimize_prompt (DynamicPromptConstructor.Build None)
      {[ "user_query" := Text "hi" ]} 10
      (Some ["user_query"; "system_message"]).
Proof.
  apply keys_outside_priority_are_ignored.
  intros key Hkey. apply list_elem_of_In in Hkey. simpl in Hkey.
  destruct Hkey as [<-|[<-|[]]]; vm_compute; reflexivity.
Defined.

(** X14: keys of [priority_order] that are missing from the components, or
    whose value is an empty string or list, are passed over: the result is
    that of the priority order without them, and when no key is left the
    prompt is the empty string. *)
Theorem absent_components_are_skipped
    (self : DynamicPromptConstructor.t) (components : gmap string value)
    (max_tokens : Z) (priority_order : list string) :
  DynamicPromptConstructor.build_and_optimize_prompt self components max_tokens
    (Some priority_order)
  = DynamicPromptConstructor.build_and_optimize_prompt self components max_tokens
      (Some (List.filter (present components) priority_order))
  /\ (List.filter (present components) priority_order = [] ->
      DynamicPromptConstructor.build_and_optimize_prompt self components max_tokens
        (Some priority_order) = Returns EmptyString).
Proof.
  unfold DynamicPromptConstructor.build_and_optimize_prompt.
  rewrite (main_loop_skips_absent self max_tokens components priority_order).
  split; [reflexivity|].
  intros ->. simpl. rewrite finish_of_nothing. reflexivity.
Qed.

Lemma absent_components_are_skipped_witness :
  DynamicPromptConstructor.build_and_optimize_prompt
    (DynamicPromptConstructor.Build (Some simple_word_tokenizer))
    (<[ "history" := Items [] ]> {[ "user_query" := Text "" ]}) 5 None
  = Returns EmptyString.
Proof.
  apply (proj2 (absent_components_are_skipped
                  (DynamicPromptConstructor.Build (Some simple_word_tokenizer))
                  (<[ "history" := Items [] ]> {[ "user_query" := Text "" ]}) 5
                  DynamicPromptConstructor.default_priority_order)).
  vm_compute. reflexivity.
Defined.

Section RunningTotal.

Import DynamicPromptConstructor.

Variable self : t.
Variable components : gmap string value.
Variable max_tokens : Z.
Hypothesis Hnone : tokenizer_func self = None.
Hypothesis Hmax : 0 <= max_tokens.

Lemma fallback_estimate_nonneg (text : string) : 0 <= _estimate_tokens self text.
Proof.
  rewrite (fallback_estimate self text Hnone). pose proof (len_nonneg text).
  apply Z.div_pos; lia.
Qed.

Lemma commit_keeps_total (key : string) (cc : value) (formatted : string) (st : locals) :
  0 <= current_tokens st <= max_tokens ->
  (final_prompt_elements st = [] -> current_tokens st = 0) ->
  let st' := locals_of (commit self max_tokens key cc formatted st) in
  0 <= current_tokens st' <= max_tokens
  /\ (final_prompt_elements st' = [] -> current_tokens st' = 0).
Proof.
  intros Hcur Hzero. unfold commit.
  pose proof (fallback_estimate_nonneg (formatted +:+ Py.newline)) as Hpos.
  destruct (Z.leb_spec (current_tokens st
              + _estimate_tokens self (formatted +:+ Py.newline)) max_tokens)
    as [Hfit|Hover]; simpl.
  - split; [lia|]. intros H. apply app_eq_nil in H as [_ H]. discriminate.
  - destruct (final_prompt_elements st) eqn:Hels; [destruct (critical key)|]; simpl;
      rewrite ?Hels; auto.
    split; [|intros H; discriminate].
    rewrite (Hzero eq_refl), (fallback_estimate self _ Hnone), len_append.
    change (Py.len Py.newline) with 1.
    set (cut := Py.slice_to formatted ((max_tokens - 0) * 3)).
    pose proof (len_slice_to_bound formatted ((max_tokens - 0) * 3) ltac:(lia)) as Hcut.
    fold cut in Hcut. pose proof (len_nonneg cut).
    pose proof (Z.div_mod (Py.len cut + 1) 4 ltac:(lia)).
    pose proof (Z.mod_pos_bound (Py.len cut + 1) 4 ltac:(lia)). lia.
Qed.

Lemma main_loop_keeps_total (priority_order : list string) :
  forall (st : locals) (c : control),
    0 <= current_tokens st <= max_tokens ->
    (final_prompt_elements st = [] -> current_tokens st = 0) ->
    main_loop self components max_tokens priority_order st = Returns c ->
    0 <= current_tokens (locals_of c) <= max_tokens.
Proof.
  induction priority_order as [|key rest IH]; intros st c Hcur Hzero; simpl.
  - intros [= <-]. exact Hcur.
  - unfold iteration.
    destruct (components !! key) as [cc|]; [|simpl; apply IH; assumption].
    destruct (negb (truthy cc)); [simpl; apply IH; assumption|].
    destruct (temp_prompt_str _ _ _ _ _) as [temp| |]; simpl; try discriminate.
    destruct (commit_keeps_total key cc (formatted_component_str key temp) st Hcur Hzero)
      as [Hcur' Hzero'].
    destruct (commit self max_tokens key cc (formatted_component_str key temp) st)
      as [st'|st']; simpl in *.
    + apply IH; assumption.
    + intros [= <-]. exact Hcur'.
Qed.

End RunningTotal.

(** X15: with no tokenizer and [max_tokens >= 0], the running total
    [current_tokens] that decides what is committed stays between 0 and
    [max_tokens] to the end of the loop, also when a critical first
    component is truncated. *)
Theorem running_total_within_budget
    (self : DynamicPromptConstructor.t) (components : gmap string value)
    (max_tokens : Z) (priority_order : list string)
    (c : DynamicPromptConstructor.control) :
  DynamicPromptConstructor.tokenizer_func self = None ->
  0 <= max_tokens ->
  DynamicPromptConstructor.main_loop self components max_tokens priority_order
    DynamicPromptConstructor.initial = Returns c ->
  0 <= DynamicPromptConstructor.current_tokens (DynamicPromptConstructor.locals_of c)
    <= max_tokens.
Proof.
  intros Hnone Hmax Hrun.
  apply (main_loop_keeps_total self components max_tokens Hnone Hmax priority_order
           DynamicPromptConstructor.initial c); simpl; auto. lia.
Qed.

Lemma running_total_within_budget_witness :
  0 <= DynamicPromptConstructor.current_tokens
         (DynamicPromptConstructor.locals_of
            (DynamicPromptConstructor.Break
               {| DynamicPromptConstructor.final_prompt_elements := ["Use"];
                  DynamicPromptConstructor.current_tokens := 1;
                  DynamicPromptConstructor.processed_components := ∅ |}))
    <= 1.
Proof.
  apply (running_total_within_budget (DynamicPromptConstructor.Build None)
           (<[ "system_message" := Text "S" ]> {[ "user_query" := Text "Q" ]}) 1
           ["user_query"; "system_message"]).
  - reflexivity.
  - lia.
  - vm_compute. reflexivity.
Defined.

(** X16: pruning has nothing to do on a store that its own methods have
    built: for [max_tokens >= 0], after any sequence of [add_message],
    [prune_context_if_needed] and [clear_context] calls on a fresh store,
    [prune_context_if_needed()] with its default argument 0 removes no
    message and returns [False]. *)
Theorem default_prune_is_noop (max_tokens : Z) (calls : list store_call) :
  0 <= max_tokens ->
  exists s',
    store_run (ContextManager.init max_tokens) calls = Returns s'
    /\ ContextManager.prune_context_if_needed s' 0 = Returns (s', false).
Proof.
  intros Hmx.
  assert (forall calls s,
            consistent s -> costs_are_estimates s ->
            exists s', store_run s calls = Returns s' /\ consistent s') as Hgen.
  { clear. induction calls as [|c rest IH]; intros s Hs Hc.
    - exists s. auto.
    - destruct (store_apply_keeps s c Hs Hc) as (s1 & Hrun1 & Hs1 & Hc1 & _).
      destruct (IH s1 Hs1 Hc1) as (s2 & Hrun2 & Hs2).
      exists s2. simpl. rewrite Hrun1. simpl. rewrite Hrun2. auto. }
  destruct (Hgen calls (ContextManager.init max_tokens) (init_consistent _ Hmx))
    as (s' & Hrun & (_ & _ & Hle)).
  { constructor. }
  exists s'. split; [exact Hrun|].
  destruct s' as [mx h cur]. simpl in Hle.
  unfold ContextManager.prune_context_if_needed. simpl.
  destruct h as [|m rest]; simpl; unfold ContextManager.loop_test; simpl.
  - rewrite andb_false_r. reflexivity.
  - destruct (Z.ltb_spec mx (cur + 0)); [lia | reflexivity].
Qed.

Lemma default_prune_is_noop_witness :
  exists s',
    store_run (ContextManager.init 10)
      [CallAddMessage "user" "Hello"; CallAddMessage "assistant" "World"] = Returns s'
    /\ ContextManager.prune_context_if_needed s' 0 = Returns (s', false).
Proof.
  exact (default_prune_is_noop 10
           [CallAddMessage "user" "Hello"; CallAddMessage "assistant" "World"]
           ltac:(lia)).
Defined.
